(** * MITRE ATT&CK key generator: the flattening function [load_attack]

    A shallow embedding of [load_attack] from [app.py] and the properties
    of the table it returns.

    Data model.  The two arguments [stix_data] and [matrix_data] are parsed
    JSON documents.  Every dictionary the function reads is a record here
    whose fields are optional: [None] is a key the dictionary does not have
    (what [dict.get] answers with [None] or with its default), and a field
    that is present carries the JSON type STIX 2.x gives it (a string, a
    boolean, a list of strings, a list of dictionaries).  Python [str] is
    [string]; comparing two strings compares them character by character,
    which is the order [String.compare] gives.

    The two Python dictionaries [tactics_by_id] and [tactics_by_shortname]
    are finite maps keyed by [option string], since [obj.get("id")] and
    [obj.get("x_mitre_shortname")] are [None] for an object without the
    key and [None] is a legal dictionary key.

    pandas.  The list [rows] becomes a [DataFrame]; the frame is a list of
    rows here.  A frame built from the empty list has no columns, so that
    selecting the column ["tactic_name"] from it raises [KeyError]; a frame
    built from a non-empty list of these dictionaries has the four columns.
    [drop_duplicates] keeps the first of equal rows and the order of the
    others, [Series.map] with a dictionary gives NaN ([None] here) at a
    value the dictionary has no key for, and [sort_values] on several
    columns is a stable sort that puts NaN last. *)

From Stdlib Require Import String Ascii.
From stdpp Require Import base option list gmap strings sorting.

Set Warnings "-clear-no-such-hyp".

(** ** Python values and results *)

Inductive py_exception : Type :=
| KeyError (key : string).

Inductive py_result (A : Type) : Type :=
| Ok (a : A)
| Raise (e : py_exception).
Arguments Ok {A} a.
Arguments Raise {A} e.

(** Truth value of [obj.get(k)] for a boolean field: [None] is falsy. *)
Definition truthy (v : option bool) : bool := default false v.

(** [sub in s] for two Python strings. *)
Fixpoint str_in (sub s : string) : bool :=
  String.prefix sub s ||
  match s with
  | EmptyString => false
  | String _ s' => str_in sub s'
  end.

(** [not s] for a Python string. *)
Definition str_is_empty (s : string) : bool :=
  match s with
  | EmptyString => true
  | String _ _ => false
  end.

(** ** The input bundles *)

(** An entry of [external_references]. *)
Record ext_ref : Type := ExtRef {
  source_name : option string;
  external_id : option string
}.

(** An entry of [kill_chain_phases]. *)
Record phase : Type := Phase {
  kill_chain_name : option string;
  phase_name : option string
}.

(** An element of [objects], with the keys [load_attack] reads. *)
Record stix_object : Type := StixObject {
  obj_type : option string;
  obj_id : option string;
  x_mitre_shortname : option string;
  obj_name : option string;
  external_references : option (list ext_ref);
  revoked : option bool;
  x_mitre_deprecated : option bool;
  x_mitre_domains : option (list string);
  kill_chain_phases : option (list phase);
  x_mitre_tactics : option (list string);
  tactic_refs : option (list string)
}.

Record bundle : Type := Bundle {
  objects : option (list stix_object)
}.

(** ** The derived tables *)

(** Values of [tactics_by_id]. *)
Module ById.
Record entry : Type := Entry {
  shortname : option string;
  tactic_name : string;
  tactic_id : string
}.
End ById.

(** Values of [tactics_by_shortname]. *)
Module ByShortname.
Record entry : Type := Entry {
  tactic_name : string;
  tactic_id : string
}.
End ByShortname.

(** A dictionary appended to [rows], a row of the returned frame. *)
Record row : Type := Row {
  tactic_name : string;
  tactic_id : string;
  technique_name : string;
  technique_id : string
}.

(** The types of the two dictionaries. *)
Abbreviation by_id_dict := (gmap (option string) ById.entry) (only parsing).
Abbreviation by_shortname_dict :=
  (gmap (option string) ByShortname.entry) (only parsing).

Global Instance py_exception_eq_dec : EqDecision py_exception.
Proof. solve_decision. Defined.
Global Instance ext_ref_eq_dec : EqDecision ext_ref.
Proof. solve_decision. Defined.
Global Instance phase_eq_dec : EqDecision phase.
Proof. solve_decision. Defined.
Global Instance row_eq_dec : EqDecision row.
Proof. solve_decision. Defined.
Global Instance stix_object_eq_dec : EqDecision stix_object.
Proof. solve_decision. Defined.

(** ** [load_attack], loop by loop *)

(** Lines 11-15: the [tactic_refs] of the first [x-mitre-matrix] object. *)
Fixpoint matrix_tactic_order (objs : list stix_object) : list string :=
  match objs with
  | [] => []
  | obj :: rest =>
      if bool_decide (obj_type obj = Some "x-mitre-matrix")
      then default [] (tactic_refs obj)
      else matrix_tactic_order rest
  end.

(** Lines 26-30 and 52-56: the loop over [external_references] that stops
    at the first reference of source ["mitre-attack"]. *)
Fixpoint resolve_code (refs : list ext_ref) : string :=
  match refs with
  | [] => ""
  | ref :: rest =>
      if bool_decide (source_name ref = Some "mitre-attack")
      then default "" (external_id ref)
      else resolve_code rest
  end.

(** Lines 20-40: one iteration of the loop that fills the two lookups. *)
Definition tactic_step
    (tabs : by_id_dict * by_shortname_dict) (obj : stix_object)
  : by_id_dict * by_shortname_dict :=
  if bool_decide (obj_type obj = Some "x-mitre-tactic") then
    let stix_id := obj_id obj in
    let short := x_mitre_shortname obj in
    let name := default "" (obj_name obj) in
    let code := resolve_code (default [] (external_references obj)) in
    (<[stix_id := ById.Entry short name code]> (tabs.1),
     <[short := ByShortname.Entry name code]> (tabs.2))
  else tabs.

Definition build_tactics (objs : list stix_object)
  : by_id_dict * by_shortname_dict :=
  foldl tactic_step (∅, ∅) objs.

(** [v in kill_chain_key] for the value of [phase.get("kill_chain_name")];
    the key set holds strings, so [None] is never a member. *)
Definition in_kill_chain_key (kill_chain_key : list string)
    (v : option string) : bool :=
  match v with
  | Some s => bool_decide (s ∈ kill_chain_key)
  | None => false
  end.

(** Lines 65-72 and 75-82: look the shortname up and append a row. *)
Definition emit_row (tactics_by_shortname : by_shortname_dict)
    (tech_name tech_code : string) (rows : list row) (short : option string)
  : list row :=
  match tactics_by_shortname !! short with
  | Some t =>
      rows ++ [Row (ByShortname.tactic_name t) (ByShortname.tactic_id t)
                   tech_name tech_code]
  | None => rows
  end.

(** Lines 62-72: one iteration of the loop over [kill_chain_phases]. *)
Definition phase_step (tactics_by_shortname : by_shortname_dict)
    (kill_chain_key : list string) (tech_name tech_code : string)
    (rows : list row) (ph : phase) : list row :=
  if in_kill_chain_key kill_chain_key (kill_chain_name ph)
  then emit_row tactics_by_shortname tech_name tech_code rows (phase_name ph)
  else rows.

(** Lines 74-82: one iteration of the loop over [x_mitre_tactics]. *)
Definition tactic_ref_step (tactics_by_shortname : by_shortname_dict)
    (tech_name tech_code : string)
    (rows : list row) (short : string) : list row :=
  emit_row tactics_by_shortname tech_name tech_code rows (Some short).

(** Lines 44-82: one iteration of the loop over the attack patterns. *)
Definition technique_step (domain_name : string)
    (tactics_by_shortname : by_shortname_dict)
    (kill_chain_key : list string)
    (rows : list row) (obj : stix_object) : list row :=
  if negb (bool_decide (obj_type obj = Some "attack-pattern")) then rows
  else if truthy (revoked obj) || truthy (x_mitre_deprecated obj) then rows
  else if negb (bool_decide (domain_name ∈ default [] (x_mitre_domains obj)))
  then rows
  else
    let tech_code := resolve_code (default [] (external_references obj)) in
    if str_is_empty tech_code || str_in "." tech_code then rows
    else
      let tech_name := default "" (obj_name obj) in
      let rows :=
        foldl (phase_step tactics_by_shortname kill_chain_key tech_name tech_code)
              rows (default [] (kill_chain_phases obj)) in
      foldl (tactic_ref_step tactics_by_shortname tech_name tech_code)
            rows (default [] (x_mitre_tactics obj)).

Definition collect_rows (domain_name : string)
    (tactics_by_shortname : by_shortname_dict)
    (kill_chain_key : list string) (objs : list stix_object) : list row :=
  foldl (technique_step domain_name tactics_by_shortname kill_chain_key) [] objs.

(** Line 84: [drop_duplicates] keeps the first occurrence of every row. *)
Fixpoint drop_duplicates (df : list row) : list row :=
  match df with
  | [] => []
  | r :: rest => r :: filter (λ r', r' ≠ r) (drop_duplicates rest)
  end.

(** [enumerate(l)]. *)
Definition enumerate {A : Type} (l : list A) : list (nat * A) :=
  zip (seq 0 (length l)) l.

(** Lines 87-90: one iteration of the loop that fills [tactic_sort_order]. *)
Definition sort_order_step (tactics_by_id : by_id_dict)
    (tactic_sort_order : gmap string nat) (p : nat * string)
  : gmap string nat :=
  match tactics_by_id !! Some p.2 with
  | Some t => <[ById.tactic_name t := p.1]> tactic_sort_order
  | None => tactic_sort_order
  end.

Definition build_sort_order (tactics_by_id : by_id_dict)
    (tactic_order : list string) : gmap string nat :=
  foldl (sort_order_step tactics_by_id) ∅ (enumerate tactic_order).

(** Line 92: the column [tactic_sort]; [None] is NaN. *)
Definition tactic_sort (tactic_sort_order : gmap string nat) (r : row)
  : option nat :=
  tactic_sort_order !! tactic_name r.

(** Order of two cells of the column [tactic_sort], NaN last. *)
Definition sort_cell_lt (a b : option nat) : bool :=
  match a, b with
  | Some x, Some y => x <? y
  | Some _, None => true
  | None, _ => false
  end.

(** Line 93: the order [sort_values(by=["tactic_sort", "technique_name"])]
    sorts by. *)
Definition row_le (tactic_sort_order : gmap string nat) (r1 r2 : row) : bool :=
  let k1 := tactic_sort tactic_sort_order r1 in
  let k2 := tactic_sort tactic_sort_order r2 in
  if sort_cell_lt k1 k2 then true
  else if sort_cell_lt k2 k1 then false
  else String.leb (technique_name r1) (technique_name r2).

(** A stable sort: a row goes before the rows after it that it does not
    exceed. *)
Fixpoint insert_row (le : row → row → bool) (r : row) (df : list row)
  : list row :=
  match df with
  | [] => [r]
  | r' :: rest => if le r r' then r :: df else r' :: insert_row le r rest
  end.

Definition sort_values (tactic_sort_order : gmap string nat) (df : list row)
  : list row :=
  foldr (insert_row (row_le tactic_sort_order)) [] df.

(** Lines 8-95.  [df] is the frame of line 84.  Line 92 selects its column
    ["tactic_name"], which a frame without rows does not have; lines 92-95
    sort the others and return them. *)
Definition load_attack (domain_name : string) (stix_data matrix_data : bundle)
    (kill_chain_key : list string) : py_result (list row) :=
  let tactic_order := matrix_tactic_order (default [] (objects matrix_data)) in
  let tabs := build_tactics (default [] (objects stix_data)) in
  let tactics_by_id := tabs.1 in
  let tactics_by_shortname := tabs.2 in
  let rows :=
    collect_rows domain_name tactics_by_shortname kill_chain_key
                 (default [] (objects stix_data)) in
  let df := drop_duplicates rows in
  let tactic_sort_order := build_sort_order tactics_by_id tactic_order in
  match df with
  | [] => Raise (KeyError "tactic_name")
  | _ :: _ => Ok (sort_values tactic_sort_order df)
  end.

(** ** What each loop appends

    The bodies of the loops above started from an empty [rows]. *)

(** The rows one lookup of a shortname appends. *)
Definition emitted (tactics_by_shortname : by_shortname_dict)
    (tech_name tech_code : string) (short : option string) : list row :=
  emit_row tactics_by_shortname tech_name tech_code [] short.

(** The rows one entry of [kill_chain_phases] appends. *)
Definition phase_rows (tactics_by_shortname : by_shortname_dict)
    (kill_chain_key : list string) (tech_name tech_code : string) (ph : phase)
  : list row :=
  phase_step tactics_by_shortname kill_chain_key tech_name tech_code [] ph.

(** The attack patterns that pass the filters of lines 45-58. *)
Definition retained (domain_name : string) (obj : stix_object) : bool :=
  bool_decide (obj_type obj = Some "attack-pattern")
  && negb (truthy (revoked obj) || truthy (x_mitre_deprecated obj))
  && bool_decide (domain_name ∈ default [] (x_mitre_domains obj))
  && negb (str_is_empty (resolve_code (default [] (external_references obj)))
           || str_in "." (resolve_code (default [] (external_references obj)))).

(** The rows one object of the bundle appends. *)
Definition technique_rows (domain_name : string)
    (tactics_by_shortname : by_shortname_dict)
    (kill_chain_key : list string) (obj : stix_object) : list row :=
  technique_step domain_name tactics_by_shortname kill_chain_key [] obj.

(** ** The order of the returned rows

    Stated apart from the comparison functions above. *)

(** The lexicographic order on strings, characters compared by code. *)
Inductive str_lex_le : string → string → Prop :=
| lex_nil s : str_lex_le "" s
| lex_lt c1 c2 s1 s2 :
    (N_of_ascii c1 < N_of_ascii c2)%N →
    str_lex_le (String c1 s1) (String c2 s2)
| lex_eq c s1 s2 :
    str_lex_le s1 s2 → str_lex_le (String c s1) (String c s2).

(** [r1] may stand before [r2] when rows are ordered by the position [pos]
    gives to their tactic, rows without a position last, and then by
    technique name. *)
Definition before_by (pos : row → option nat) (r1 r2 : row) : Prop :=
  match pos r1, pos r2 with
  | Some i, Some j =>
      i < j ∨ (i = j ∧ str_lex_le (technique_name r1) (technique_name r2))
  | Some _, None => True
  | None, Some _ => False
  | None, None => str_lex_le (technique_name r1) (technique_name r2)
  end.

(** The order with the positions of [tactic_sort_order]. *)
Definition key_before (tactic_sort_order : gmap string nat)
  : row → row → Prop :=
  before_by (tactic_sort tactic_sort_order).

(** The tactic name line 90 reads at position [i] of [tactic_order]: the
    name [tactics_by_id] holds for the identifier at that position. *)
Definition name_at (tactics_by_id : by_id_dict)
    (tactic_order : list string) (i : nat) : option string :=
  tac_id ← tactic_order !! i;
  t ← tactics_by_id !! Some tac_id;
  Some (ById.tactic_name t).

(** The first place of a list at which [f] holds. *)
Fixpoint first_index {A : Type} (f : A → bool) (l : list A) : option nat :=
  match l with
  | [] => None
  | x :: rest => if f x then Some 0 else S <$> first_index f rest
  end.

(** The identifier [tac_id] is that of a tactic with the name and the code
    of the row [r]. *)
Definition refers_to_tactic_of (tactics_by_id : by_id_dict)
    (r : row) (tac_id : string) : bool :=
  match tactics_by_id !! Some tac_id with
  | Some t =>
      bool_decide (ById.tactic_name t = tactic_name r ∧
                   ById.tactic_id t = tactic_id r)
  | None => false
  end.

(** The position of a row's tactic as the specification words it: the
    first place of [tactic_refs] that refers to the tactic of the row. *)
Definition spec_tactic_position (tactics_by_id : by_id_dict)
    (tactic_order : list string) (r : row) : option nat :=
  first_index (refers_to_tactic_of tactics_by_id r) tactic_order.

(** ** Names for the parts of a call *)

Definition stix_objects (b : bundle) : list stix_object :=
  default [] (objects b).

Definition tactics_by_id_of (stix_data : bundle)
  : by_id_dict :=
  (build_tactics (stix_objects stix_data)).1.

Definition tactics_by_shortname_of (stix_data : bundle)
  : by_shortname_dict :=
  (build_tactics (stix_objects stix_data)).2.

Definition tactic_sort_order_of (stix_data matrix_data : bundle)
  : gmap string nat :=
  build_sort_order (tactics_by_id_of stix_data)
                   (matrix_tactic_order (stix_objects matrix_data)).

(** The code of an object, [resolve_code] on its references. *)
Definition code_of (obj : stix_object) : string :=
  resolve_code (default [] (external_references obj)).

(** The row that joins the tactic object [tac] and the attack pattern [ap]. *)
Definition joined_row (tac ap : stix_object) : row :=
  Row (default "" (obj_name tac)) (code_of tac)
      (default "" (obj_name ap)) (code_of ap).

(** ** Sample bundles *)

Definition mitre_ref (code : string) : ext_ref :=
  ExtRef (Some "mitre-attack") (Some code).

Definition tactic_object (id short name code : string) : stix_object :=
  StixObject (Some "x-mitre-tactic") (Some id) (Some short) (Some name)
    (Some [mitre_ref code]) None None None None None None.

Definition matrix_object (refs : list string) : stix_object :=
  StixObject (Some "x-mitre-matrix") None None None None None None None None
    None (Some refs).

Definition technique_object (name code : string) (domains : list string)
    (phases : list phase) (tactics : option (list string)) : stix_object :=
  StixObject (Some "attack-pattern") None None (Some name)
    (Some [mitre_ref code]) (Some false) (Some false) (Some domains)
    (Some phases) tactics None.

(** The scenario of the specification: two tactics in matrix order and one
    technique ["T100"] of the tactic ["execution"]. *)
Definition scenario_stix (t1 t2 code1 code2 tech_name : string)
    (domains : list string) : bundle :=
  Bundle (Some
    [tactic_object t1 "initial-access" "Initial Access" code1;
     tactic_object t2 "execution" "Execution" code2;
     technique_object tech_name "T100" domains
       [Phase (Some "mitre-attack") (Some "execution")] None]).

Definition scenario_matrix (t1 t2 : string) : bundle :=
  Bundle (Some [matrix_object [t1; t2]]).

Definition empty_bundle : bundle := Bundle (Some []).

(** Two tactics named "Collection", of which only the first is in the
    matrix order, with a technique of the second and a technique of the
    tactic "Execution", which the matrix order lists. *)
Definition namesake_stix : bundle :=
  Bundle (Some
    [tactic_object "x-mitre-tactic--a" "collection" "Collection" "TA0009";
     tactic_object "x-mitre-tactic--b" "collection-ics" "Collection" "TA0100";
     tactic_object "x-mitre-tactic--c" "execution" "Execution" "TA0104";
     technique_object "Screen Capture" "T0852" ["ics-attack"]
       [Phase (Some "mitre-ics-attack") (Some "collection-ics")] None;
     technique_object "Native API" "T0834" ["ics-attack"]
       [Phase (Some "mitre-ics-attack") (Some "execution")] None]).

Definition namesake_matrix : bundle :=
  Bundle (Some [matrix_object ["x-mitre-tactic--a"; "x-mitre-tactic--c"]]).

(** A small enterprise bundle: two tactics, a technique that names its
    tactic in both [kill_chain_phases] and [x_mitre_tactics], a technique of
    the first tactic, a revoked technique and a sub-technique. *)
Definition native_api : stix_object :=
  technique_object "Native API" "T1106" ["enterprise-attack"]
    [Phase (Some "mitre-attack") (Some "execution")] (Some ["execution"]).

Definition revoked_technique : stix_object :=
  StixObject (Some "attack-pattern") None None (Some "Hooking")
    (Some [mitre_ref "T1179"]) (Some true) None (Some ["enterprise-attack"])
    (Some [Phase (Some "mitre-attack") (Some "execution")]) None None.

Definition sample_head : list stix_object :=
  [tactic_object "x-mitre-tactic--1" "initial-access" "Initial Access" "TA0001";
   tactic_object "x-mitre-tactic--2" "execution" "Execution" "TA0002";
   native_api].

Definition sample_tail : list stix_object :=
  [technique_object "Phishing" "T1566" ["enterprise-attack"]
     [Phase (Some "mitre-attack") (Some "initial-access")] None;
   technique_object "Spearphishing Link" "T1566.002" ["enterprise-attack"]
     [Phase (Some "mitre-attack") (Some "initial-access")] None].

Definition sample_stix : bundle :=
  Bundle (Some (sample_head ++ revoked_technique :: sample_tail)).

Definition sample_matrix : bundle :=
  Bundle (Some [matrix_object ["x-mitre-tactic--1"; "x-mitre-tactic--2"]]).

Definition sample_rows : list row :=
  [Row "Initial Access" "TA0001" "Phishing" "T1566";
   Row "Execution" "TA0002" "Native API" "T1106"].

(** A tactic without [x_mitre_shortname] and a technique whose phase has
    no [phase_name]. *)
Definition shortnameless_tactic : stix_object :=
  StixObject (Some "x-mitre-tactic") (Some "x-mitre-tactic--9") None
    (Some "Impact") (Some [mitre_ref "TA0040"]) None None None None None None.

Definition nameless_phase : phase := Phase (Some "mitre-attack") None.

Definition phaseless_technique : stix_object :=
  technique_object "Data Destruction" "T1485" ["enterprise-attack"]
    [nameless_phase] None.

Definition shortnameless_stix : bundle :=
  Bundle (Some [shortnameless_tactic; phaseless_technique]).

(** A second tactic without [x_mitre_shortname], after the first. *)
Definition later_shortnameless_tactic : stix_object :=
  StixObject (Some "x-mitre-tactic") (Some "x-mitre-tactic--10") None
    (Some "Exfiltration") (Some [mitre_ref "TA0010"]) None None None None None
    None.

Definition two_shortnameless_stix : bundle :=
  Bundle (Some [shortnameless_tactic; later_shortnameless_tactic;
                phaseless_technique]).

(** ** What the call produces, read off the input

    The rows of the result in terms of the objects of the bundle, without
    the loops. *)

(** [tac] is the last tactic object of the bundle with the shortname
    [short]. *)
Definition last_tactic_with (short : option string) (objs : list stix_object)
    (tac : stix_object) : Prop :=
  ∃ pre post,
    objs = pre ++ tac :: post ∧
    obj_type tac = Some "x-mitre-tactic" ∧
    x_mitre_shortname tac = short ∧
    ∀ obj, obj ∈ post → obj_type obj = Some "x-mitre-tactic" →
           x_mitre_shortname obj ≠ short.

(** The attack pattern [ap] passes the tests of lines 45-58. *)
Definition passes_filters (domain_name : string) (ap : stix_object) : Prop :=
  obj_type ap = Some "attack-pattern" ∧
  revoked ap ≠ Some true ∧
  x_mitre_deprecated ap ≠ Some true ∧
  domain_name ∈ default [] (x_mitre_domains ap) ∧
  code_of ap ≠ "" ∧
  "."%char ∉ list_ascii_of_string (code_of ap).

(** The attack pattern [ap] names the shortname [short]: in a phase of an
    accepted kill chain, or in [x_mitre_tactics]. *)
Definition names_shortname (kill_chain_key : list string) (ap : stix_object)
    (short : option string) : Prop :=
  (∃ ph kc, ph ∈ default [] (kill_chain_phases ap) ∧
            kill_chain_name ph = Some kc ∧ kc ∈ kill_chain_key ∧
            phase_name ph = short) ∨
  (∃ s, s ∈ default [] (x_mitre_tactics ap) ∧ short = Some s).

(** The row [r] joins an attack pattern that passes the tests with the
    last tactic object of a shortname it names. *)
Definition produced (domain_name : string) (kill_chain_key : list string)
    (objs : list stix_object) (r : row) : Prop :=
  ∃ ap short tac,
    ap ∈ objs ∧ passes_filters domain_name ap ∧
    names_shortname kill_chain_key ap short ∧
    last_tactic_with short objs tac ∧
    r = joined_row tac ap.

(** Two rows that [sort_values] does not order: the same cell in
    [tactic_sort] and the same technique name. *)
Definition tied (tactic_sort_order : gmap string nat) (r1 r2 : row) : Prop :=
  tactic_sort tactic_sort_order r1 = tactic_sort tactic_sort_order r2 ∧
  technique_name r1 = technique_name r2.

Global Instance tied_dec tactic_sort_order r1 r2 :
  Decision (tied tactic_sort_order r1 r2).
Proof. unfold tied. apply _. Defined.

(** ** The script that calls [load_attack]: lines 121-215

    The body of the button up to the display of the table.  The network
    is a parameter [http_get], from a URL to what [requests.get] and
    [resp.json()] do there.  A body that parses to a JSON object is a
    bundle, with the fields of the data model above; a body may also parse
    to [null] or to a value that is not an object.  The messages of
    [st.error] are collected in a list, in the order they are shown.  The
    frames are lists of rows as before: [merge] with [how="left"] keeps the
    rows of the left frame in their order, and [cumcount] numbers the rows
    of a group from 0 in the order of the frame.  The Excel file and the
    download button (lines 217-226) are not part of the model: a run that
    has the table on display is followed up to line 215. *)

Definition ENT_STIX_BASE : string :=
  "https://raw.githubusercontent.com/mitre-attack/attack-stix-data/master/enterprise-attack/".
Definition ICS_STIX_BASE : string :=
  "https://raw.githubusercontent.com/mitre-attack/attack-stix-data/master/ics-attack/".
Definition ENT_MATRIX_BASE : string :=
  "https://raw.githubusercontent.com/mitre/cti/master/enterprise-attack/x-mitre-matrix/".
Definition ICS_MATRIX_BASE : string :=
  "https://raw.githubusercontent.com/mitre/cti/master/ics-attack/x-mitre-matrix/".

(** A parsed body that is not a JSON object: [null], or a list, a string,
    a number or a boolean. *)
Inductive other_json : Type :=
| JsonNull
| JsonNotObject.

(** What [requests.get(url)] and then [resp.json()] do: the request raises,
    or it answers with a status code and a body.  In [Response] the body is
    one that [resp.json()] raises on ([None]) or parses to an object, a
    bundle; in [ResponseOther] it parses to a value that is not an
    object. *)
Inductive http_result : Type :=
| RequestRaises
| Response (status_code : Z) (json : option bundle)
| ResponseOther (status_code : Z) (json : other_json).

(** A value [fetch_json_or_error] returns that is not [None]: a dictionary,
    or a value of another Python type. *)
Inductive document : Type :=
| Object (doc : bundle)
| NotObject.

Definition newline : string := String "010" "".

(** Lines 128-138.  The messages of [st.error] are appended to [errors].
    Line 135 returns what [resp.json()] gives: for the body [null] that is
    [None], with no message. *)
Definition fetch_json_or_error (http_get : string → http_result)
    (errors : list string) (url label : string)
  : list string * option document :=
  match http_get url with
  | Response status_code json =>
      if bool_decide (status_code ≠ 200%Z) then
        (errors ++ [label +:+ " file not found at URL:" +:+ newline +:+ url],
         None)
      else
        match json with
        | Some doc => (errors, Some (Object doc))
        | None =>
            (errors ++
               ["Failed to fetch " +:+ label +:+ ". Check filename or network."],
             None)
        end
  | ResponseOther status_code json =>
      if bool_decide (status_code ≠ 200%Z) then
        (errors ++ [label +:+ " file not found at URL:" +:+ newline +:+ url],
         None)
      else
        match json with
        | JsonNull => (errors, None)
        | JsonNotObject => (errors, Some NotObject)
        end
  | RequestRaises =>
      (errors ++
         ["Failed to fetch " +:+ label +:+ ". Check filename or network."],
       None)
  end.

(** The fetch returns [None]: the request raises, the status is not 200,
    the body does not parse, or the body is [null]. *)
Definition returns_none (r : http_result) : Prop :=
  match r with
  | RequestRaises => True
  | Response status_code json => status_code ≠ 200%Z ∨ json = None
  | ResponseOther status_code json => status_code ≠ 200%Z ∨ json = JsonNull
  end.

(** The fetch returns the document [d]. *)
Definition returns_document (r : http_result) (d : document) : Prop :=
  match d with
  | Object doc => r = Response 200 (Some doc)
  | NotObject => r = ResponseOther 200 JsonNotObject
  end.

(** The frame after line 172 or 180: the rows with the column ["ENT/ICS"]. *)
Record tagged_row : Type := TaggedRow {
  row_of : row;
  ent_ics : string
}.

(** A row of the table that is displayed, with the columns of lines
    195-211 in their order. *)
Record key_row : Type := KeyRow {
  TT_Key : string;
  ENT_ICS : string;
  Tactics : string;
  Techniques : string;
  Tactics_Order : option nat;
  Techniques_Order : nat;
  Tactics_Code : string;
  Techniques_Code : string;
  Tactics_With_Code : string;
  Techniques_With_Code : string
}.

Definition add_domain_column (domain : string) (df : list row)
  : list tagged_row :=
  (λ r, TaggedRow r domain) <$> df.

(** Lines 186-187: [name + " (" + code + ")"]. *)
Definition with_code (name code : string) : string :=
  name +:+ " (" +:+ code +:+ ")".

Definition tactics_with_code (r : tagged_row) : string :=
  with_code (tactic_name (row_of r)) (tactic_id (row_of r)).

(** [drop_duplicates] on a frame of one column of strings. *)
Fixpoint unique_first (keys : list string) : list string :=
  match keys with
  | [] => []
  | k :: rest => k :: filter (λ k', k' ≠ k) (unique_first rest)
  end.

(** Lines 189-190: the frame [unique_tactics] with its column
    [Tactics_Order]. *)
Definition unique_tactics (combined_df : list tagged_row)
  : list (string * nat) :=
  let keys := unique_first (tactics_with_code <$> combined_df) in
  zip keys (seq 1 (length keys)).

(** Line 191: [merge(..., how="left")] on the column of the tactic with its
    code.  A row of the left frame is paired with every row of the right
    frame that has its key, in their order, and with NaN ([None]) when
    there is none. *)
Definition merge_left (combined_df : list tagged_row)
    (right : list (string * nat)) : list (tagged_row * option nat) :=
  combined_df ≫= λ r,
    match filter (λ p, p.1 = tactics_with_code r) right with
    | [] => [(r, None)]
    | matches => (λ p, (r, Some p.2)) <$> matches
    end.

(** Line 193: [groupby(key).cumcount()], the number of earlier rows with the
    key of the row; [seen] holds the keys of the rows before [keys]. *)
Fixpoint cumcount (seen keys : list string) : list nat :=
  match keys with
  | [] => []
  | k :: rest =>
      length (filter (λ k', k' = k) seen) :: cumcount (k :: seen) rest
  end.

(** Lines 182-211. *)
Definition key_table (enterprise_df ics_df : list row) : list key_row :=
  let combined_df :=
    add_domain_column "ENT" enterprise_df ++ add_domain_column "ICS" ics_df in
  let merged := merge_left combined_df (unique_tactics combined_df) in
  let counts := cumcount [] ((λ m, tactics_with_code m.1) <$> merged) in
  zip_with
    (λ m count,
       let r := row_of m.1 in
       KeyRow (ent_ics m.1 +:+ tactic_name r +:+ technique_name r)
              (ent_ics m.1)
              (tactic_name r)
              (technique_name r)
              m.2
              (count + 1)
              (tactic_id r)
              (technique_id r)
              (with_code (tactic_name r) (tactic_id r))
              (with_code (technique_name r) (technique_id r)))
    merged counts.

(** An exception of the run: one that [load_attack] raises on two bundles,
    or the [AttributeError] of [.get] at line 12 or line 20 when an
    argument of [load_attack] is not a dictionary. *)
Inductive run_exception : Type :=
| InLoadAttack (e : py_exception)
| AttributeError (attribute : string).

(** [load_attack] on what the fetches returned.  Line 12 reads
    [matrix_data.get] before line 20 reads [stix_data.get]. *)
Definition load_attack_document (domain_name : string)
    (stix_data matrix_data : document) (kill_chain_key : list string)
  : list row + run_exception :=
  match matrix_data with
  | NotObject => inr (AttributeError "get")
  | Object matrix =>
      match stix_data with
      | NotObject => inr (AttributeError "get")
      | Object stix =>
          match load_attack domain_name stix matrix kill_chain_key with
          | Ok df => inl df
          | Raise e => inr (InLoadAttack e)
          end
      end
  end.

(** How a run of lines 142-215 ends: at [st.stop()], with an exception that
    nothing catches, or with the table on display. *)
Inductive outcome : Type :=
| Stopped
| Uncaught (e : run_exception)
| Displayed (combined_df : list key_row).

(** Lines 142-215, the body of the button: the messages of [st.error] and
    the way the run ends. *)
Definition process_attack_data (http_get : string → http_result)
    (ent_stix_file ent_matrix_file ics_stix_file ics_matrix_file : string)
  : list string * outcome :=
  if existsb str_is_empty
       [ent_stix_file; ent_matrix_file; ics_stix_file; ics_matrix_file]
  then (["All four filenames are required."], Stopped)
  else
    let ent_stix_url := ENT_STIX_BASE +:+ ent_stix_file in
    let ent_matrix_url := ENT_MATRIX_BASE +:+ ent_matrix_file in
    let ics_stix_url := ICS_STIX_BASE +:+ ics_stix_file in
    let ics_matrix_url := ICS_MATRIX_BASE +:+ ics_matrix_file in
    let '(errors, ent_stix_data) :=
      fetch_json_or_error http_get [] ent_stix_url "Enterprise STIX" in
    let '(errors, ent_matrix_data) :=
      fetch_json_or_error http_get errors ent_matrix_url "Enterprise Matrix" in
    let '(errors, ics_stix_data) :=
      fetch_json_or_error http_get errors ics_stix_url "ICS STIX" in
    let '(errors, ics_matrix_data) :=
      fetch_json_or_error http_get errors ics_matrix_url "ICS Matrix" in
    match ent_stix_data, ent_matrix_data, ics_stix_data, ics_matrix_data with
    | Some ent_stix, Some ent_matrix, Some ics_stix, Some ics_matrix =>
        match load_attack_document "enterprise-attack" ent_stix ent_matrix
                ["mitre-attack"; "mitre-enterprise-attack"] with
        | inr e => (errors, Uncaught e)
        | inl enterprise_df =>
            match load_attack_document "ics-attack" ics_stix ics_matrix
                    ["mitre-attack"; "mitre-ics-attack"] with
            | inr e => (errors, Uncaught e)
            | inl ics_df => (errors, Displayed (key_table enterprise_df ics_df))
            end
        end
    | _, _, _, _ => (errors, Stopped)
    end.

(** Two techniques of one name under one tactic. *)
Definition tie_stix : bundle :=
  Bundle (Some
    [tactic_object "x-mitre-tactic--2" "execution" "Execution" "TA0002";
     technique_object "Native API" "T1106" ["enterprise-attack"]
       [Phase (Some "mitre-attack") (Some "execution")] None;
     technique_object "Native API" "T1059" ["enterprise-attack"]
       [Phase (Some "mitre-attack") (Some "execution")] None]).

(** A server for the sample bundles. *)
Definition sample_http (url : string) : http_result :=
  if bool_decide (url = ENT_STIX_BASE +:+ "enterprise-attack.json")
  then Response 200 (Some sample_stix)
  else if bool_decide (url = ENT_MATRIX_BASE +:+ "matrix-ent.json")
  then Response 200 (Some sample_matrix)
  else if bool_decide (url = ICS_STIX_BASE +:+ "ics-attack.json")
  then Response 200 (Some namesake_stix)
  else if bool_decide (url = ICS_MATRIX_BASE +:+ "matrix-ics.json")
  then Response 200 (Some namesake_matrix)
  else if bool_decide (url = ICS_STIX_BASE +:+ "empty.json")
  then Response 200 (Some empty_bundle)
  else if bool_decide (url = ICS_STIX_BASE +:+ "null.json")
  then ResponseOther 200 JsonNull
  else if bool_decide (url = ICS_MATRIX_BASE +:+ "list.json")
  then ResponseOther 200 JsonNotObject
  else if bool_decide (url = ICS_MATRIX_BASE +:+ "unreachable.json")
  then RequestRaises
  else Response 404 None.

(** * Properties *)

(** ** The loops that append to [rows] *)

(** A loop whose body appends [g x] to the accumulator appends the
    concatenation of all the [g x]. *)
Lemma foldl_append {A B : Type} (f : list B → A → list B) (g : A → list B) :
  (∀ acc x, f acc x = acc ++ g x) →
  ∀ l acc, foldl f acc l = acc ++ (l ≫= g).
Proof.
  intros Hf l. induction l as [|x l IH]; intros acc; simpl.
  - by rewrite app_nil_r.
  - by rewrite IH, Hf, <-app_assoc.
Qed.

Section rows.

Context (domain_name : string).

Context (tbs : by_shortname_dict).

Context (kck : list string).

Lemma emit_row_app tn tc rows short :
  emit_row tbs tn tc rows short = rows ++ emitted tbs tn tc short.
Proof.
  unfold emitted, emit_row. destruct (tbs !! short); simpl; [done|].
  by rewrite app_nil_r.
Qed.

Lemma phase_step_app tn tc rows ph :
  phase_step tbs kck tn tc rows ph = rows ++ phase_rows tbs kck tn tc ph.
Proof.
  unfold phase_rows, phase_step.
  destruct (in_kill_chain_key kck (kill_chain_name ph)).
  - rewrite !emit_row_app. done.
  - by rewrite app_nil_r.
Qed.

Lemma tactic_ref_step_app tn tc rows short :
  tactic_ref_step tbs tn tc rows short = rows ++ emitted tbs tn tc (Some short).
Proof. apply emit_row_app. Qed.

Lemma technique_rows_retained obj :
  retained domain_name obj = true →
  technique_rows domain_name tbs kck obj =
    (default [] (kill_chain_phases obj) ≫=
       phase_rows tbs kck (default "" (obj_name obj))
         (resolve_code (default [] (external_references obj))))
    ++ (default [] (x_mitre_tactics obj) ≫=
          λ short, emitted tbs (default "" (obj_name obj))
                     (resolve_code (default [] (external_references obj)))
                     (Some short)).
Proof.
  unfold retained, technique_rows, technique_step. intros H.
  rewrite !andb_true_iff, !negb_true_iff in H.
  destruct H as [[[H1 H2] H3] H4]. rewrite H1, H2, H3, H4. simpl.
  rewrite (foldl_append _ _ (tactic_ref_step_app _ _)).
  rewrite (foldl_append _ _ (phase_step_app _ _)). done.
Qed.

Lemma technique_rows_not_retained obj :
  retained domain_name obj = false →
  technique_rows domain_name tbs kck obj = [].
Proof.
  unfold retained, technique_rows, technique_step. intros H.
  destruct (bool_decide (obj_type obj = Some "attack-pattern")); [|done].
  destruct (truthy (revoked obj) || truthy (x_mitre_deprecated obj)); [done|].
  destruct (bool_decide (domain_name ∈ default [] (x_mitre_domains obj))); [|done].
  simpl in *.
  destruct (str_is_empty _ || str_in "." _); [done|]. discriminate.
Qed.

Lemma technique_step_app rows obj :
  technique_step domain_name tbs kck rows obj =
    rows ++ technique_rows domain_name tbs kck obj.
Proof.
  unfold technique_rows, technique_step.
  destruct (negb (bool_decide (obj_type obj = Some "attack-pattern")));
    [by rewrite app_nil_r|].
  destruct (truthy (revoked obj) || truthy (x_mitre_deprecated obj));
    [by rewrite app_nil_r|].
  destruct (negb (bool_decide (domain_name ∈ default [] (x_mitre_domains obj))));
    [by rewrite app_nil_r|].
  simpl.
  destruct (str_is_empty _ || str_in "." _); [by rewrite app_nil_r|].
  rewrite !(foldl_append _ _ (tactic_ref_step_app _ _)).
  rewrite !(foldl_append _ _ (phase_step_app _ _)).
  by rewrite app_assoc.
Qed.

Lemma collect_rows_bind objs :
  collect_rows domain_name tbs kck objs =
    objs ≫= technique_rows domain_name tbs kck.
Proof.
  unfold collect_rows. by rewrite (foldl_append _ _ technique_step_app).
Qed.

Lemma collect_rows_app objs1 objs2 :
  collect_rows domain_name tbs kck (objs1 ++ objs2) =
    collect_rows domain_name tbs kck objs1 ++
    collect_rows domain_name tbs kck objs2.
Proof. rewrite !collect_rows_bind. apply bind_app. Qed.

Lemma elem_of_emitted tn tc short r :
  r ∈ emitted tbs tn tc short ↔
  ∃ t, tbs !! short = Some t ∧
       r = Row (ByShortname.tactic_name t) (ByShortname.tactic_id t) tn tc.
Proof.
  unfold emitted, emit_row. destruct (tbs !! short) as [t|]; simpl.
  - rewrite list_elem_of_singleton. naive_solver.
  - rewrite elem_of_nil. naive_solver.
Qed.

Lemma elem_of_phase_rows tn tc ph r :
  r ∈ phase_rows tbs kck tn tc ph ↔
  in_kill_chain_key kck (kill_chain_name ph) = true ∧
  r ∈ emitted tbs tn tc (phase_name ph).
Proof.
  unfold phase_rows, phase_step.
  destruct (in_kill_chain_key kck (kill_chain_name ph)).
  - unfold emitted. naive_solver.
  - rewrite elem_of_nil. naive_solver.
Qed.

(** Where a collected row comes from. *)
Lemma elem_of_collect_rows objs r :
  r ∈ collect_rows domain_name tbs kck objs ↔
  ∃ obj, obj ∈ objs ∧ retained domain_name obj = true ∧
         r ∈ technique_rows domain_name tbs kck obj.
Proof.
  rewrite collect_rows_bind, list_elem_of_bind. split.
  - intros (obj & Hr & Hobj). exists obj. split; [done|]. split; [|done].
    destruct (retained domain_name obj) eqn:E; [done|].
    rewrite technique_rows_not_retained in Hr by done.
    by apply elem_of_nil in Hr.
  - naive_solver.
Qed.

(** Every row of a retained object carries its name and its code. *)
Lemma technique_rows_technique obj r :
  retained domain_name obj = true →
  r ∈ technique_rows domain_name tbs kck obj →
  technique_name r = default "" (obj_name obj) ∧
  technique_id r = resolve_code (default [] (external_references obj)).
Proof.
  intros Hret. rewrite technique_rows_retained by done.
  rewrite elem_of_app, !list_elem_of_bind.
  intros [(ph & Hr & _)|(s & Hr & _)].
  - apply elem_of_phase_rows in Hr as [_ Hr].
    apply elem_of_emitted in Hr as (t & _ & ->). done.
  - apply elem_of_emitted in Hr as (t & _ & ->). done.
Qed.

End rows.

(** ** The order on strings *)

Lemma str_lex_le_refl s : str_lex_le s s.
Proof. induction s; by constructor. Qed.

Lemma str_lex_le_trans s1 s2 s3 :
  str_lex_le s1 s2 → str_lex_le s2 s3 → str_lex_le s1 s3.
Proof.
  intros H12. revert s3.
  induction H12 as [s|c1 c2 s1 s2 Hlt|c s1 s2 H IH]; intros s3 H23.
  - constructor.
  - inversion H23; subst.
    + apply lex_lt. by etrans.
    + by apply lex_lt.
  - inversion H23; subst.
    + by apply lex_lt.
    + apply lex_eq. by apply IH.
Qed.

Lemma ascii_compare_refl c : Ascii.compare c c = Eq.
Proof. unfold Ascii.compare. apply N.compare_refl. Qed.

Lemma string_leb_lex s1 s2 : String.leb s1 s2 = true ↔ str_lex_le s1 s2.
Proof.
  unfold String.leb. split.
  - revert s2. induction s1 as [|c1 s1 IH]; intros [|c2 s2] Hle; simpl in Hle;
      try done; try apply lex_nil.
    destruct (Ascii.compare c1 c2) eqn:Hc; try done.
    + apply Ascii.compare_eq_iff in Hc as ->. apply lex_eq, IH, Hle.
    + apply lex_lt. unfold Ascii.compare in Hc.
      by apply N.compare_lt_iff in Hc.
  - induction 1 as [s|c1 c2 s1 s2 Hlt|c s1 s2 H IH]; simpl.
    + by destruct s.
    + unfold Ascii.compare. apply N.compare_lt_iff in Hlt. by rewrite Hlt.
    + by rewrite ascii_compare_refl.
Qed.

(** ** The order [sort_values] sorts by *)

Lemma sort_cell_lt_spec a b :
  sort_cell_lt a b = true ↔
  match a, b with
  | Some x, Some y => x < y
  | Some _, None => True
  | None, _ => False
  end.
Proof.
  destruct a as [x|], b as [y|]; simpl; try done.
  apply Nat.ltb_lt.
Qed.

Lemma row_le_key_before tso r1 r2 :
  row_le tso r1 r2 = true ↔ key_before tso r1 r2.
Proof.
  unfold row_le, key_before, before_by, tactic_sort.
  destruct (tso !! tactic_name r1) as [x|], (tso !! tactic_name r2) as [y|];
    simpl; rewrite ?string_leb_lex; try done.
  destruct (x <? y) eqn:E1.
  - apply Nat.ltb_lt in E1. split; [auto | done].
  - apply Nat.ltb_ge in E1. destruct (y <? x) eqn:E2.
    + apply Nat.ltb_lt in E2. split; [done | lia].
    + apply Nat.ltb_ge in E2. rewrite string_leb_lex.
      split; [intros; right; split; [lia | done] | intros [?|[_ ?]]; [lia | done]].
Qed.

Lemma row_le_total tso r1 r2 :
  row_le tso r1 r2 = true ∨ row_le tso r2 r1 = true.
Proof.
  unfold row_le.
  destruct (sort_cell_lt _ _) eqn:E1; [by left|].
  destruct (sort_cell_lt (tactic_sort tso r2) _) eqn:E2; [by right|].
  apply String.leb_total.
Qed.

Lemma key_before_trans tso r1 r2 r3 :
  key_before tso r1 r2 → key_before tso r2 r3 → key_before tso r1 r3.
Proof.
  unfold key_before, before_by, tactic_sort.
  destruct (tso !! tactic_name r1) as [x|], (tso !! tactic_name r2) as [y|],
    (tso !! tactic_name r3) as [z|]; try done.
  - intros [?|[-> H1]] [?|[-> H2]]; [left; lia | left; lia | left; lia |].
    right. split; [done|]. by eapply str_lex_le_trans.
  - apply str_lex_le_trans.
Qed.

(** ** [drop_duplicates] *)

Lemma elem_of_drop_duplicates df r : r ∈ drop_duplicates df ↔ r ∈ df.
Proof.
  induction df as [|r0 df IH]; simpl; [done|].
  rewrite !elem_of_cons, list_elem_of_filter, IH.
  destruct (decide (r = r0)); naive_solver.
Qed.

Lemma NoDup_drop_duplicates df : NoDup (drop_duplicates df).
Proof.
  induction df as [|r0 df IH]; simpl; [constructor|].
  apply NoDup_cons. split.
  - rewrite list_elem_of_filter. naive_solver.
  - by apply NoDup_filter.
Qed.

Lemma drop_duplicates_nil df : drop_duplicates df = [] ↔ df = [].
Proof. by destruct df. Qed.

(** ** [sort_values] *)

Lemma insert_row_perm le r df : insert_row le r df ≡ₚ r :: df.
Proof.
  induction df as [|r' df IH]; simpl; [done|].
  destruct (le r r'); [done|]. rewrite IH. apply Permutation_swap.
Qed.

Lemma sort_values_perm tso df : sort_values tso df ≡ₚ df.
Proof.
  unfold sort_values. induction df as [|r df IH]; simpl; [done|].
  by rewrite insert_row_perm, IH.
Qed.

Lemma insert_row_sorted tso r df :
  StronglySorted (key_before tso) df →
  StronglySorted (key_before tso) (insert_row (row_le tso) r df).
Proof.
  induction 1 as [|r' df Hs IH Hall]; simpl.
  - repeat constructor.
  - destruct (row_le tso r r') eqn:E.
    + apply row_le_key_before in E. constructor.
      * by constructor.
      * constructor; [done|].
        eapply Forall_impl; [exact Hall|].
        intros r''. by apply key_before_trans.
    + constructor; [done|].
      rewrite insert_row_perm. constructor; [|done].
      apply row_le_key_before.
      by destruct (row_le_total tso r r') as [H|H]; [congruence|].
Qed.

Lemma sort_values_sorted tso df :
  StronglySorted (key_before tso) (sort_values tso df).
Proof.
  unfold sort_values. induction df as [|r df IH]; simpl.
  - constructor.
  - by apply insert_row_sorted.
Qed.

(** ** The result of [load_attack] *)

Lemma load_attack_unfold dom stix matrix kck :
  load_attack dom stix matrix kck =
    match drop_duplicates
            (collect_rows dom (tactics_by_shortname_of stix) kck
                          (stix_objects stix)) with
    | [] => Raise (KeyError "tactic_name")
    | r :: df =>
        Ok (sort_values (tactic_sort_order_of stix matrix) (r :: df))
    end.
Proof.
  unfold load_attack. cbv zeta.
  change (default [] (objects stix)) with (stix_objects stix).
  change (build_tactics (stix_objects stix)).2
    with (tactics_by_shortname_of stix).
  by destruct (drop_duplicates _).
Qed.

Lemma load_attack_Ok dom stix matrix kck rows :
  load_attack dom stix matrix kck = Ok rows →
  rows = sort_values (tactic_sort_order_of stix matrix)
           (drop_duplicates
              (collect_rows dom (tactics_by_shortname_of stix) kck
                            (stix_objects stix))).
Proof.
  rewrite load_attack_unfold.
  destruct (drop_duplicates _); [done|]. by intros [= <-].
Qed.

Lemma load_attack_Ok_perm dom stix matrix kck rows :
  load_attack dom stix matrix kck = Ok rows →
  rows ≡ₚ drop_duplicates
            (collect_rows dom (tactics_by_shortname_of stix) kck
                          (stix_objects stix)).
Proof. intros ->%load_attack_Ok. apply sort_values_perm. Qed.

Lemma load_attack_Ok_elem_of dom stix matrix kck rows r :
  load_attack dom stix matrix kck = Ok rows →
  r ∈ rows ↔
  r ∈ collect_rows dom (tactics_by_shortname_of stix) kck (stix_objects stix).
Proof.
  intros H%load_attack_Ok_perm. by rewrite H, elem_of_drop_duplicates.
Qed.

(** The call raises exactly when no row was appended. *)
Lemma load_attack_Raise dom stix matrix kck :
  load_attack dom stix matrix kck = Raise (KeyError "tactic_name") ↔
  collect_rows dom (tactics_by_shortname_of stix) kck (stix_objects stix) = [].
Proof.
  rewrite load_attack_unfold, <-drop_duplicates_nil.
  by destruct (drop_duplicates _).
Qed.

Lemma load_attack_returns dom stix matrix kck r :
  r ∈ collect_rows dom (tactics_by_shortname_of stix) kck (stix_objects stix) →
  ∃ rows, load_attack dom stix matrix kck = Ok rows.
Proof.
  intros Hr. rewrite load_attack_unfold.
  destruct (drop_duplicates _) as [|r' df] eqn:E; [|by eexists].
  apply (proj1 (drop_duplicates_nil _)) in E. rewrite E in Hr.
  by apply elem_of_nil in Hr.
Qed.

Lemma load_attack_Ok_NoDup dom stix matrix kck rows :
  load_attack dom stix matrix kck = Ok rows → NoDup rows.
Proof.
  intros H%load_attack_Ok_perm. rewrite H. apply NoDup_drop_duplicates.
Qed.

(** ** The two lookups *)

Lemma build_tactics_snoc objs obj :
  build_tactics (objs ++ [obj]) = tactic_step (build_tactics objs) obj.
Proof. unfold build_tactics. by rewrite foldl_app. Qed.

Lemma tactic_step_other tabs obj :
  obj_type obj ≠ Some "x-mitre-tactic" → tactic_step tabs obj = tabs.
Proof. intros H. unfold tactic_step. by rewrite bool_decide_eq_false_2. Qed.

Lemma build_tactics_remove pre obj post :
  obj_type obj ≠ Some "x-mitre-tactic" →
  build_tactics (pre ++ obj :: post) = build_tactics (pre ++ post).
Proof.
  intros H. unfold build_tactics. rewrite !foldl_app. simpl.
  by rewrite tactic_step_other.
Qed.

(** The entry [tactics_by_shortname] gets from a tactic object. *)
Lemma tactic_step_shortname tabs obj :
  obj_type obj = Some "x-mitre-tactic" →
  (tactic_step tabs obj).2 =
    <[x_mitre_shortname obj :=
        ByShortname.Entry (default "" (obj_name obj)) (code_of obj)]> (tabs.2).
Proof. intros H. unfold tactic_step. by rewrite bool_decide_eq_true_2. Qed.

(** The last tactic object of a shortname is the one the lookup keeps. *)
Lemma build_tactics_shortname_last pre tac post :
  obj_type tac = Some "x-mitre-tactic" →
  (∀ obj, obj ∈ post → obj_type obj = Some "x-mitre-tactic" →
          x_mitre_shortname obj ≠ x_mitre_shortname tac) →
  (build_tactics (pre ++ tac :: post)).2 !! x_mitre_shortname tac =
    Some (ByShortname.Entry (default "" (obj_name tac)) (code_of tac)).
Proof.
  intros Htac. induction post as [|obj post IH] using rev_ind; intros Hpost.
    rewrite build_tactics_snoc, tactic_step_shortname by done.
    apply lookup_insert_eq.
  - replace (pre ++ tac :: post ++ [obj]) with ((pre ++ tac :: post) ++ [obj])
      by (by rewrite <-app_assoc).
    rewrite build_tactics_snoc.
    destruct (decide (obj_type obj = Some "x-mitre-tactic")) as [Ht|Ht].
    + rewrite tactic_step_shortname by done.
      rewrite lookup_insert_ne.
      * apply IH. intros o Ho. apply Hpost. set_solver.
      * apply Hpost; [set_solver | done].
    + rewrite tactic_step_other by done.
      apply IH. intros o Ho. apply Hpost. set_solver.
Qed.

(** Every shortname of a tactic object is a key of the lookup. *)
Lemma build_tactics_shortname_is_Some objs tac :
  tac ∈ objs → obj_type tac = Some "x-mitre-tactic" →
  is_Some ((build_tactics objs).2 !! x_mitre_shortname tac).
Proof.
  induction objs as [|obj objs IH] using rev_ind; intros Hin Htac.
  - by apply elem_of_nil in Hin.
  - rewrite build_tactics_snoc.
    destruct (decide (obj_type obj = Some "x-mitre-tactic")) as [Ht|Ht].
    + rewrite tactic_step_shortname by done.
      destruct (decide (x_mitre_shortname obj = x_mitre_shortname tac)) as [E|E].
      * rewrite E, lookup_insert_eq. by eexists.
      * rewrite lookup_insert_ne by done. apply IH; [|done].
        apply elem_of_app in Hin as [?|Hin]; [done|].
        apply list_elem_of_singleton in Hin as ->. done.
    + rewrite tactic_step_other by done. apply IH; [|done].
      apply elem_of_app in Hin as [?|Hin]; [done|].
      apply list_elem_of_singleton in Hin as ->. done.
Qed.

Lemma tactic_step_tables tabs obj :
  obj_type obj = Some "x-mitre-tactic" →
  tactic_step tabs obj =
    (<[obj_id obj := ById.Entry (x_mitre_shortname obj)
                       (default "" (obj_name obj)) (code_of obj)]> (tabs.1),
     <[x_mitre_shortname obj :=
         ByShortname.Entry (default "" (obj_name obj)) (code_of obj)]> (tabs.2)).
Proof. intros H. unfold tactic_step. by rewrite bool_decide_eq_true_2. Qed.

(** Every entry of the two lookups was stored for a tactic object. *)
Lemma tactics_by_id_origin objs k e :
  (build_tactics objs).1 !! k = Some e →
  ∃ obj, obj ∈ objs ∧ obj_type obj = Some "x-mitre-tactic" ∧
         obj_id obj = k ∧ ById.tactic_name e = default "" (obj_name obj) ∧
         ById.tactic_id e = code_of obj.
Proof.
  induction objs as [|obj objs IH] using rev_ind.
  - unfold build_tactics. simpl. by rewrite lookup_empty.
  - rewrite build_tactics_snoc.
    destruct (decide (obj_type obj = Some "x-mitre-tactic")) as [Ht|Ht].
    + rewrite tactic_step_tables by done. simpl.
      destruct (decide (obj_id obj = k)) as [<-|Hk].
      * rewrite lookup_insert_eq. intros [= <-]. exists obj.
        split; [set_solver|done].
      * rewrite lookup_insert_ne by done.
        intros H. apply IH in H as (o & ? & ?). exists o.
        split; [set_solver|done].
    + rewrite tactic_step_other by done.
      intros H. apply IH in H as (o & ? & ?). exists o.
      split; [set_solver|done].
Qed.

Lemma tactics_by_shortname_origin objs k t :
  (build_tactics objs).2 !! k = Some t →
  ∃ obj, obj ∈ objs ∧ obj_type obj = Some "x-mitre-tactic" ∧
         x_mitre_shortname obj = k ∧
         ByShortname.tactic_name t = default "" (obj_name obj) ∧
         ByShortname.tactic_id t = code_of obj.
Proof.
  induction objs as [|obj objs IH] using rev_ind.
  - unfold build_tactics. simpl. by rewrite lookup_empty.
  - rewrite build_tactics_snoc.
    destruct (decide (obj_type obj = Some "x-mitre-tactic")) as [Ht|Ht].
    + rewrite tactic_step_tables by done. simpl.
      destruct (decide (x_mitre_shortname obj = k)) as [<-|Hk].
      * rewrite lookup_insert_eq. intros [= <-]. exists obj.
        split; [set_solver|done].
      * rewrite lookup_insert_ne by done.
        intros H. apply IH in H as (o & ? & ?). exists o.
        split; [set_solver|done].
    + rewrite tactic_step_other by done.
      intros H. apply IH in H as (o & ? & ?). exists o.
      split; [set_solver|done].
Qed.

(** The last tactic object without [x_mitre_shortname] is the value of
    [tactics_by_shortname[None]]. *)
Lemma tactics_by_shortname_None_last stix pre tac post :
  stix_objects stix = pre ++ tac :: post →
  obj_type tac = Some "x-mitre-tactic" →
  x_mitre_shortname tac = None →
  (∀ obj, obj ∈ post → obj_type obj = Some "x-mitre-tactic" →
          x_mitre_shortname obj ≠ None) →
  tactics_by_shortname_of stix !! None =
    Some (ByShortname.Entry (default "" (obj_name tac)) (code_of tac)).
Proof.
  intros Hobjs Htype Hshort Hlast.
  unfold tactics_by_shortname_of. rewrite Hobjs, <-Hshort.
  apply build_tactics_shortname_last; [done|]. by rewrite Hshort.
Qed.

(** ** Codes *)

Lemma prefix_dot c s :
  String.prefix "." (String c s) = bool_decide ("."%char = c).
Proof.
  destruct s; cbn -[ascii_dec]; destruct (ascii_dec "." c); symmetry;
    by (apply bool_decide_eq_true_2 || apply bool_decide_eq_false_2).
Qed.

Lemma str_in_dot s :
  str_in "." s = true ↔ "."%char ∈ list_ascii_of_string s.
Proof.
  induction s as [|c s IH].
  - simpl. rewrite elem_of_nil. done.
  - change (str_in "." (String c s))
      with (String.prefix "." (String c s) || str_in "." s).
    change (list_ascii_of_string (String c s))
      with (c :: list_ascii_of_string s).
    rewrite prefix_dot, elem_of_cons, <-IH, orb_true_iff, bool_decide_eq_true.
    done.
Qed.

Lemma str_is_empty_spec s : str_is_empty s = true ↔ s = "".
Proof. by destruct s. Qed.

Lemma retained_code dom obj :
  retained dom obj = true →
  code_of obj ≠ "" ∧ "."%char ∉ list_ascii_of_string (code_of obj).
Proof.
  unfold retained. rewrite !andb_true_iff, !negb_true_iff, !orb_false_iff.
  intros (_ & Hne & Hdot). fold (code_of obj) in Hne, Hdot. split.
  - intros E%str_is_empty_spec. congruence.
  - intros E%str_in_dot. congruence.
Qed.

(** An object without a usable code leaves [rows] as it is, whatever its
    other keys hold. *)
Lemma technique_step_no_code dom tbs kck rows obj :
  code_of obj = "" ∨ "."%char ∈ list_ascii_of_string (code_of obj) →
  technique_step dom tbs kck rows obj = rows.
Proof.
  intros H. rewrite technique_step_app, technique_rows_not_retained.
  - apply app_nil_r.
  - destruct (retained dom obj) eqn:E; [|done].
    apply retained_code in E as [? ?]. by destruct H.
Qed.

(** A revoked or deprecated object leaves [rows] as it is. *)
Lemma technique_step_revoked dom tbs kck rows obj :
  truthy (revoked obj) = true ∨ truthy (x_mitre_deprecated obj) = true →
  technique_step dom tbs kck rows obj = rows.
Proof.
  intros H. unfold technique_step.
  destruct (negb (bool_decide (obj_type obj = Some "attack-pattern"))); [done|].
  by destruct H as [-> | ->]; rewrite ?orb_true_r.
Qed.

(** ** Counting a row *)

Lemma count_row_elem_of (r : row) (df : list row) :
  r ∈ df → 1 ≤ length (filter (λ r', r' = r) df).
Proof.
  induction 1 as [r df|r r' df _ IH].
  - rewrite filter_cons_True by done. simpl. lia.
  - rewrite filter_cons. destruct (decide (r' = r)); simpl; lia.
Qed.

Lemma count_row_not_elem_of (r : row) (df : list row) :
  r ∉ df → filter (λ r', r' = r) df = [].
Proof.
  induction df as [|r' df IH]; intros Hnotin; [done|].
  apply not_elem_of_cons in Hnotin as [Hne Hnotin].
  rewrite filter_cons_False by congruence. by apply IH.
Qed.

Lemma count_row_NoDup (r : row) (df : list row) :
  NoDup df → r ∈ df → length (filter (λ r', r' = r) df) = 1.
Proof.
  induction 1 as [|r' df Hnotin Hnd IH]; intros Hin.
  - by apply elem_of_nil in Hin.
  - rewrite filter_cons. destruct (decide (r' = r)) as [->|Hne].
    + simpl. by rewrite count_row_not_elem_of.
    + apply IH. by apply elem_of_cons in Hin as [?|?].
Qed.

(** ** [tactic_sort_order] *)

Lemma enumerate_snoc {A : Type} (l : list A) (x : A) :
  enumerate (l ++ [x]) = enumerate l ++ [(length l, x)].
Proof.
  unfold enumerate. rewrite length_app. simpl.
  rewrite Nat.add_1_r, seq_S. simpl.
  rewrite zip_with_app by apply length_seq. done.
Qed.

Lemma build_sort_order_snoc tbi order tac_id :
  build_sort_order tbi (order ++ [tac_id]) =
    sort_order_step tbi (build_sort_order tbi order) (length order, tac_id).
Proof. unfold build_sort_order. by rewrite enumerate_snoc, foldl_app. Qed.

Lemma name_at_lt tbi order tac_id i :
  i < length order →
  name_at tbi (order ++ [tac_id]) i = name_at tbi order i.
Proof. intros H. unfold name_at. by rewrite lookup_app_l. Qed.

Lemma name_at_ge tbi order i :
  length order ≤ i → name_at tbi order i = None.
Proof. intros H. unfold name_at. by rewrite lookup_ge_None_2. Qed.

Lemma name_at_last tbi order tac_id :
  name_at tbi (order ++ [tac_id]) (length order) =
    ById.tactic_name <$> tbi !! Some tac_id.
Proof.
  unfold name_at. rewrite list_lookup_middle by done. simpl.
  by destruct (tbi !! Some tac_id).
Qed.

Lemma sort_order_step_lookup tbi tso i tac_id name :
  sort_order_step tbi tso (i, tac_id) !! name =
    if decide (ById.tactic_name <$> tbi !! Some tac_id = Some name)
    then Some i else tso !! name.
Proof.
  unfold sort_order_step. simpl. destruct (tbi !! Some tac_id) as [t|]; simpl.
  - destruct (decide (Some (ById.tactic_name t) = Some name)) as [[= ->]|Hne].
    + apply lookup_insert_eq.
    + apply lookup_insert_ne. congruence.
  - done.
Qed.

(** The entry of a name is the last position of [tactic_order] at which
    line 90 reads that name. *)
Lemma build_sort_order_lookup tbi order name i :
  build_sort_order tbi order !! name = Some i ↔
  name_at tbi order i = Some name ∧
  ∀ j, i < j → name_at tbi order j ≠ Some name.
Proof.
  revert i. induction order as [|tac_id order IH] using rev_ind; intros i.
  - unfold build_sort_order, name_at. simpl. rewrite lookup_empty.
    split; [done | by intros [? _]].
  - rewrite build_sort_order_snoc, sort_order_step_lookup.
    pose proof (name_at_last tbi order tac_id) as Hlast.
    destruct (decide (_ = Some name)) as [Hn|Hn].
    + rewrite <-Hlast in Hn. split.
      * intros [= <-]. split; [done|]. intros j Hj.
        rewrite name_at_ge; [done|]. rewrite length_app. simpl. lia.
      * intros [Hi Hafter]. f_equal.
        destruct (Nat.lt_trichotomy i (length order)) as [Hlt|[->|Hgt]].
        -- by destruct (Hafter _ Hlt).
        -- done.
        -- rewrite name_at_ge in Hi; [done|]. rewrite length_app. simpl. lia.
    + rewrite <-Hlast in Hn. rewrite IH. split.
      * intros [Hi Hafter].
        assert (i < length order) as Hlt.
        { destruct (decide (i < length order)); [done|].
          rewrite name_at_ge in Hi by lia. done. }
        split; [by rewrite name_at_lt|]. intros j Hj.
        destruct (Nat.lt_trichotomy j (length order)) as [Hjl|[->|Hjg]].
        -- rewrite name_at_lt by done. by apply Hafter.
        -- done.
        -- rewrite name_at_ge; [done|]. rewrite length_app. simpl. lia.
      * intros [Hi Hafter].
        assert (i < length order) as Hlt.
        { destruct (Nat.lt_trichotomy i (length order)) as [Hl|[->|Hg]].
          - done.
          - done.
          - rewrite name_at_ge in Hi; [done|]. rewrite length_app. simpl. lia. }
        split; [by rewrite <-(name_at_lt _ _ tac_id)|]. intros j Hj.
        destruct (decide (j < length order)) as [Hjl|Hjl].
        -- rewrite <-(name_at_lt _ _ tac_id) by done. by apply Hafter.
        -- rewrite name_at_ge by lia. done.
Qed.

Lemma name_at_Some tbi order i name :
  name_at tbi order i = Some name ↔
  ∃ tac_id t, order !! i = Some tac_id ∧ tbi !! Some tac_id = Some t ∧
              ById.tactic_name t = name.
Proof.
  unfold name_at. split.
  - intros H. destruct (order !! i) as [tac_id|]; simpl in H; [|done].
    destruct (tbi !! Some tac_id) as [t|] eqn:Ht; simpl in H; [|done].
    injection H as <-. by exists tac_id, t.
  - intros (tac_id & t & -> & Ht & <-). simpl. by rewrite Ht.
Qed.

Lemma build_sort_order_is_Some tbi order name i :
  name_at tbi order i = Some name →
  is_Some (build_sort_order tbi order !! name).
Proof.
  revert i. induction order as [|tac_id order IH] using rev_ind; intros i Hi.
  - by rewrite name_at_ge in Hi by (simpl; lia).
  - rewrite build_sort_order_snoc, sort_order_step_lookup.
    destruct (decide (_ = Some name)) as [Hn|Hn]; [by eexists|].
    rewrite <-(name_at_last tbi order tac_id) in Hn.
    destruct (Nat.lt_trichotomy i (length order)) as [Hlt|[->|Hgt]].
    + rewrite name_at_lt in Hi by done. by eapply IH.
    + done.
    + rewrite name_at_ge in Hi; [done|]. rewrite length_app. simpl. lia.
Qed.

(** ** Positions in [tactic_refs] *)

Lemma first_index_Some_intro {A : Type} (f : A → bool) (l : list A) i x :
  l !! i = Some x → f x = true →
  (∀ j y, j < i → l !! j = Some y → f y = false) →
  first_index f l = Some i.
Proof.
  revert i. induction l as [|x0 l IH]; intros i Hi Hx Hbefore; [done|].
  destruct i as [|i]; simpl in *.
  - injection Hi as ->. by rewrite Hx.
  - rewrite (Hbefore 0 x0) by (done || lia). simpl.
    rewrite (IH i); [done..|].
    intros j y Hj Hy. apply (Hbefore (S j) y); [lia | done].
Qed.

Lemma first_index_None_intro {A : Type} (f : A → bool) (l : list A) :
  (∀ x, x ∈ l → f x = false) → first_index f l = None.
Proof.
  induction l as [|x0 l IH]; intros Hall; [done|]. simpl.
  rewrite Hall by apply list_elem_of_here.
  rewrite IH; [done|]. intros x Hx. apply Hall. by apply list_elem_of_further.
Qed.

(** The tactic columns of a collected row are an entry of the lookup. *)
Lemma collect_rows_tactic dom tbs kck objs r :
  r ∈ collect_rows dom tbs kck objs →
  ∃ short t, tbs !! short = Some t ∧
             tactic_name r = ByShortname.tactic_name t ∧
             tactic_id r = ByShortname.tactic_id t.
Proof.
  intros (obj & _ & Hret & Hr)%elem_of_collect_rows.
  rewrite technique_rows_retained in Hr by done.
  apply elem_of_app in Hr as [Hr|Hr];
    apply list_elem_of_bind in Hr as (x & Hr & _).
  - apply elem_of_phase_rows in Hr as [_ Hr].
    apply elem_of_emitted in Hr as (t & Ht & ->). by exists (phase_name x), t.
  - apply elem_of_emitted in Hr as (t & Ht & ->). by exists (Some x), t.
Qed.

Lemma before_by_ext pos1 pos2 (df : list row) :
  (∀ r, r ∈ df → pos1 r = pos2 r) →
  StronglySorted (before_by pos1) df → StronglySorted (before_by pos2) df.
Proof.
  intros Hext Hs. induction Hs as [|r df Hs IH Hall]; constructor.
  - apply IH. intros r' Hr'. apply Hext. by apply list_elem_of_further.
  - apply Forall_forall. intros r' Hr'.
    rewrite Forall_forall in Hall. specialize (Hall r' Hr').
    unfold before_by in *.
    rewrite <-(Hext r) by apply list_elem_of_here.
    rewrite <-(Hext r') by (by apply list_elem_of_further). done.
Qed.

(** * The claims *)

Lemma sample_load_attack :
  load_attack "enterprise-attack" sample_stix sample_matrix ["mitre-attack"] =
    Ok sample_rows.
Proof. vm_compute. reflexivity. Qed.

(** C1. A bundle without objects: no row is appended, and the call raises
    [KeyError] at line 92 instead of returning. *)
Theorem empty_bundle_raises dom matrix kck :
  load_attack dom empty_bundle matrix kck = Raise (KeyError "tactic_name").
Proof. reflexivity. Qed.

(** C2. No row of the returned table has an empty [technique_id] or one
    with a ["."] in it, and an object whose code is empty or has a ["."]
    appends nothing to [rows], whatever its domains and flags. *)
Theorem technique_id_nonempty_undotted dom stix matrix kck rows r :
  load_attack dom stix matrix kck = Ok rows →
  r ∈ rows →
  (technique_id r ≠ "") ∧
  ("."%char ∉ list_ascii_of_string (technique_id r)) ∧
  (∀ obj acc,
     code_of obj = "" ∨ "."%char ∈ list_ascii_of_string (code_of obj) →
     technique_step dom (tactics_by_shortname_of stix) kck acc obj = acc).
Proof.
  intros Hload Hr.
  apply (load_attack_Ok_elem_of _ _ _ _ _ _ Hload) in Hr.
  apply elem_of_collect_rows in Hr as (obj & _ & Hret & Hr).
  destruct (technique_rows_technique _ _ _ _ _ Hret Hr) as [_ ->].
  destruct (retained_code _ _ Hret) as [? ?].
  repeat split; try done.
  intros obj' acc. apply technique_step_no_code.
Qed.

Lemma technique_id_nonempty_undotted_sample :
  load_attack "enterprise-attack" sample_stix sample_matrix ["mitre-attack"] =
    Ok sample_rows ∧
  (technique_id (Row "Execution" "TA0002" "Native API" "T1106") ≠ "") ∧
  ("."%char ∉ list_ascii_of_string
                (technique_id (Row "Execution" "TA0002" "Native API" "T1106"))) ∧
  (∀ obj acc,
     code_of obj = "" ∨ "."%char ∈ list_ascii_of_string (code_of obj) →
     technique_step "enterprise-attack" (tactics_by_shortname_of sample_stix)
       ["mitre-attack"] acc obj = acc).
Proof.
  split; [vm_compute; reflexivity|].
  apply (technique_id_nonempty_undotted "enterprise-attack" sample_stix
           sample_matrix ["mitre-attack"] sample_rows).
  - vm_compute; reflexivity.
  - unfold sample_rows. apply list_elem_of_further, list_elem_of_here.
Defined.

(** The sub-technique ["T100.001"] leaves [rows] as it is, whatever the
    other keys of the object hold. *)
Example subtechnique_skipped dom tbs kck acc ty id short name rev dep doms
    phases tactics refs :
  technique_step dom tbs kck acc
    (StixObject ty id short name (Some [mitre_ref "T100.001"]) rev dep doms
       phases tactics refs) = acc.
Proof.
  apply technique_step_no_code. right.
  do 4 apply list_elem_of_further. apply list_elem_of_here.
Qed.

(** C3. An attack pattern whose [revoked] or [x_mitre_deprecated] is truthy
    appends nothing to [rows], and the call returns what it returns for the
    bundle without that object. *)
Theorem revoked_or_deprecated_contributes_nothing
    dom pre obj post matrix kck :
  obj_type obj = Some "attack-pattern" →
  truthy (revoked obj) = true ∨ truthy (x_mitre_deprecated obj) = true →
  (∀ tbs acc, technique_step dom tbs kck acc obj = acc) ∧
  load_attack dom (Bundle (Some (pre ++ obj :: post))) matrix kck =
    load_attack dom (Bundle (Some (pre ++ post))) matrix kck.
Proof.
  intros Htype Hflag. split.
  - intros tbs acc. by apply technique_step_revoked.
  - rewrite !load_attack_unfold.
    unfold tactic_sort_order_of, tactics_by_id_of, tactics_by_shortname_of,
      stix_objects. simpl.
    rewrite build_tactics_remove by congruence.
    rewrite (collect_rows_app _ _ _ pre (obj :: post)).
    rewrite (collect_rows_app _ _ _ [obj] post).
    rewrite (collect_rows_app _ _ _ pre post).
    unfold collect_rows at 2. simpl.
    by rewrite technique_step_revoked.
Qed.

Lemma revoked_or_deprecated_contributes_nothing_sample :
  (∀ tbs acc,
     technique_step "enterprise-attack" tbs ["mitre-attack"] acc
       revoked_technique = acc) ∧
  load_attack "enterprise-attack" sample_stix sample_matrix ["mitre-attack"] =
    load_attack "enterprise-attack" (Bundle (Some (sample_head ++ sample_tail)))
      sample_matrix ["mitre-attack"].
Proof.
  apply (revoked_or_deprecated_contributes_nothing "enterprise-attack"
           sample_head revoked_technique sample_tail sample_matrix
           ["mitre-attack"]).
  - reflexivity.
  - left. reflexivity.
Defined.

(** C4. The returned table has no two equal rows. *)
Theorem rows_pairwise_distinct dom stix matrix kck rows :
  load_attack dom stix matrix kck = Ok rows → NoDup rows.
Proof. apply load_attack_Ok_NoDup. Qed.

Lemma rows_pairwise_distinct_sample :
  load_attack "enterprise-attack" sample_stix sample_matrix ["mitre-attack"] =
    Ok sample_rows ∧
  NoDup sample_rows.
Proof.
  split; [vm_compute; reflexivity|].
  apply (rows_pairwise_distinct "enterprise-attack" sample_stix sample_matrix
           ["mitre-attack"]).
  vm_compute; reflexivity.
Defined.

(** C5, as the code has it.  The returned rows are sorted by the entry
    [tactic_sort_order] has for their [tactic_name], rows whose name has no
    entry last, and then by [technique_name] in lexicographic order.  The
    entry of a name is the last position of [tactic_refs] whose identifier
    [tactics_by_id] maps to a tactic of that name. *)
Theorem rows_sorted_by_name_position dom stix matrix kck rows :
  load_attack dom stix matrix kck = Ok rows →
  StronglySorted (key_before (tactic_sort_order_of stix matrix)) rows ∧
  ∀ name i,
    tactic_sort_order_of stix matrix !! name = Some i ↔
    name_at (tactics_by_id_of stix)
            (matrix_tactic_order (stix_objects matrix)) i = Some name ∧
    ∀ j, i < j →
         name_at (tactics_by_id_of stix)
                 (matrix_tactic_order (stix_objects matrix)) j ≠ Some name.
Proof.
  intros ->%load_attack_Ok. split.
  - apply sort_values_sorted.
  - intros name i. apply build_sort_order_lookup.
Qed.

Lemma rows_sorted_by_name_position_sample :
  load_attack "enterprise-attack" sample_stix sample_matrix ["mitre-attack"] =
    Ok sample_rows ∧
  StronglySorted (key_before (tactic_sort_order_of sample_stix sample_matrix))
    sample_rows.
Proof.
  split; [vm_compute; reflexivity|].
  apply (rows_sorted_by_name_position "enterprise-attack" sample_stix
           sample_matrix ["mitre-attack"] sample_rows).
  vm_compute; reflexivity.
Defined.

(** C5, as the claim has it, fails: with two tactics of one name, the rows
    of the one that [tactic_refs] does not list take the position of its
    namesake and come before the rows of a listed tactic. *)
Lemma namesake_rows_not_sorted_by_tactic_position :
  ∃ rows,
    load_attack "ics-attack" namesake_stix namesake_matrix
                ["mitre-attack"; "mitre-ics-attack"] = Ok rows ∧
    ¬ StronglySorted
        (before_by
           (spec_tactic_position
              (tactics_by_id_of namesake_stix)
              (matrix_tactic_order (stix_objects namesake_matrix))))
        rows.
Proof.
  eexists. split; [vm_compute; reflexivity|].
  intros Hsorted. apply StronglySorted_inv in Hsorted as [_ Hall].
  apply Forall_inv in Hall. vm_compute in Hall. exact Hall.
Qed.

(** ** Bundles whose tactics have distinct names

    When no two tactic objects of the bundle have the same name and
    [tactic_refs] lists no identifier twice, the position line 90 stores
    for the name of a row's tactic is the position of that tactic in
    [tactic_refs], and the rows are sorted by it. *)

Section distinct_names.

Context (stix_data matrix_data : bundle).

Let tactic_order := matrix_tactic_order (stix_objects matrix_data).

Hypothesis tactic_order_NoDup : NoDup tactic_order.

Hypothesis tactic_names_distinct :
  ∀ obj1 obj2,
    obj1 ∈ stix_objects stix_data → obj2 ∈ stix_objects stix_data →
    obj_type obj1 = Some "x-mitre-tactic" →
    obj_type obj2 = Some "x-mitre-tactic" →
    default "" (obj_name obj1) = default "" (obj_name obj2) →
    obj1 = obj2.

Lemma spec_tactic_position_tactic_sort dom kck r :
  r ∈ collect_rows dom (tactics_by_shortname_of stix_data) kck
        (stix_objects stix_data) →
  spec_tactic_position (tactics_by_id_of stix_data) tactic_order r =
    tactic_sort (tactic_sort_order_of stix_data matrix_data) r.
Proof.
  intros (short & t & Ht & Hname & Hcode)%collect_rows_tactic.
  apply tactics_by_shortname_origin in Ht
    as (obj & Hobj & Htype & _ & Hn & Hc).
  assert (∀ tac_id e,
            tactics_by_id_of stix_data !! Some tac_id = Some e →
            ById.tactic_name e = tactic_name r →
            obj_id obj = Some tac_id ∧ ById.tactic_id e = tactic_id r) as Hsame.
  { intros tac_id e He Hen.
    apply tactics_by_id_origin in He
      as (obj' & Hobj' & Htype' & Hid & Hn' & Hc').
    assert (obj' = obj) as ->
      by (apply tactic_names_distinct; congruence).
    split; congruence. }
  unfold spec_tactic_position, tactic_sort, tactic_sort_order_of.
  fold tactic_order.
  destruct (build_sort_order _ _ !! tactic_name r) as [i|] eqn:Hpos.
  - apply build_sort_order_lookup in Hpos as [Hi _].
    apply name_at_Some in Hi as (tac_id & e & Hi & He & Hen).
    destruct (Hsame _ _ He Hen) as [Hid Hec].
    eapply first_index_Some_intro; [exact Hi| |].
    + unfold refers_to_tactic_of. rewrite He. by apply bool_decide_eq_true_2.
    + intros j y Hj Hy. unfold refers_to_tactic_of.
      destruct (tactics_by_id_of stix_data !! Some y) as [e'|] eqn:He'; [|done].
      apply bool_decide_eq_false_2. intros [Hen' _].
      destruct (Hsame _ _ He' Hen') as [Hid' _].
      assert (y = tac_id) as -> by congruence.
      pose proof (NoDup_lookup _ _ _ _ tactic_order_NoDup Hy Hi). lia.
  - apply first_index_None_intro. intros y Hy. unfold refers_to_tactic_of.
    destruct (tactics_by_id_of stix_data !! Some y) as [e'|] eqn:He'; [|done].
    apply bool_decide_eq_false_2. intros [Hen' _].
    apply list_elem_of_lookup in Hy as [j Hj].
    assert (name_at (tactics_by_id_of stix_data) tactic_order j =
              Some (tactic_name r)) as Hat
      by (apply name_at_Some; by exists y, e').
    apply build_sort_order_is_Some in Hat as [i Hi]. congruence.
Qed.

(** On such bundles the returned rows are sorted by the position of their
    tactic in [tactic_refs], and then by technique name. *)
Lemma rows_sorted_by_tactic_position dom kck rows :
  load_attack dom stix_data matrix_data kck = Ok rows →
  StronglySorted
    (before_by (spec_tactic_position (tactics_by_id_of stix_data) tactic_order))
    rows.
Proof.
  intros Hload.
  apply (before_by_ext
           (tactic_sort (tactic_sort_order_of stix_data matrix_data))).
  - intros r Hr. symmetry. apply (spec_tactic_position_tactic_sort dom kck).
    by apply (load_attack_Ok_elem_of _ _ _ _ _ _ Hload).
  - pose proof (load_attack_Ok _ _ _ _ _ Hload) as ->.
    apply sort_values_sorted.
Qed.

End distinct_names.

(** The sample bundle is one of them. *)
Lemma sample_rows_sorted_by_tactic_position :
  StronglySorted
    (before_by
       (spec_tactic_position (tactics_by_id_of sample_stix)
          (matrix_tactic_order (stix_objects sample_matrix))))
    sample_rows.
Proof.
  apply (rows_sorted_by_tactic_position sample_stix sample_matrix)
    with (dom := "enterprise-attack") (kck := ["mitre-attack"]).
  - vm_compute. repeat constructor; set_solver.
  - intros obj1 obj2 H1 H2.
    unfold stix_objects, sample_stix, sample_head, sample_tail in H1, H2.
    simpl in H1, H2.
    repeat (apply elem_of_cons in H1 as [->|H1]);
      try (by apply elem_of_nil in H1);
      repeat (apply elem_of_cons in H2 as [->|H2]);
      try (by apply elem_of_nil in H2);
      done.
  - apply sample_load_attack.
Qed.

(** C6. When an accepted [kill_chain_phases] entry and an [x_mitre_tactics]
    entry of a retained attack pattern name the same shortname of a tactic
    of the bundle, the loops append the row of that tactic and technique at
    least twice, and the returned table holds it exactly once. *)
Theorem phase_and_tactic_list_give_one_row
    dom stix matrix kck tac ap ph s :
  tac ∈ stix_objects stix →
  obj_type tac = Some "x-mitre-tactic" →
  x_mitre_shortname tac = Some s →
  ap ∈ stix_objects stix →
  retained dom ap = true →
  ph ∈ default [] (kill_chain_phases ap) →
  in_kill_chain_key kck (kill_chain_name ph) = true →
  phase_name ph = Some s →
  s ∈ default [] (x_mitre_tactics ap) →
  ∃ t rows,
    tactics_by_shortname_of stix !! Some s = Some t ∧
    load_attack dom stix matrix kck = Ok rows ∧
    2 ≤ length (filter
                  (λ r, r = Row (ByShortname.tactic_name t)
                                (ByShortname.tactic_id t)
                                (default "" (obj_name ap)) (code_of ap))
                  (collect_rows dom (tactics_by_shortname_of stix) kck
                                (stix_objects stix))) ∧
    length (filter
              (λ r, r = Row (ByShortname.tactic_name t)
                            (ByShortname.tactic_id t)
                            (default "" (obj_name ap)) (code_of ap))
              rows) = 1.
Proof.
  intros Htac Htype Hshort Hap Hret Hph Hacc Hname Hs.
  destruct (build_tactics_shortname_is_Some _ _ Htac Htype) as [t Ht].
  rewrite Hshort in Ht. fold (tactics_by_shortname_of stix) in Ht.
  pose (r := Row (ByShortname.tactic_name t) (ByShortname.tactic_id t)
                 (default "" (obj_name ap)) (code_of ap)).
  assert (r ∈ default [] (kill_chain_phases ap) ≫=
            phase_rows (tactics_by_shortname_of stix) kck
              (default "" (obj_name ap)) (code_of ap)) as Hr1.
  { apply list_elem_of_bind. exists ph. split; [|done].
    apply elem_of_phase_rows. split; [done|].
    apply elem_of_emitted. exists t. by rewrite Hname. }
  assert (r ∈ default [] (x_mitre_tactics ap) ≫=
            λ short, emitted (tactics_by_shortname_of stix)
                       (default "" (obj_name ap)) (code_of ap) (Some short))
    as Hr2.
  { apply list_elem_of_bind. exists s. split; [|done].
    apply elem_of_emitted. by exists t. }
  assert (r ∈ collect_rows dom (tactics_by_shortname_of stix) kck
                (stix_objects stix)) as Hr.
  { apply elem_of_collect_rows. exists ap. split; [done|]. split; [done|].
    rewrite technique_rows_retained by done. apply elem_of_app. by left. }
  destruct (load_attack_returns _ _ matrix _ _ Hr) as [rows Hrows].
  exists t, rows. fold r. split; [done|]. split; [done|]. split.
  - apply list_elem_of_split in Hap as (l1 & l2 & ->).
    rewrite (collect_rows_app _ _ _ l1 (ap :: l2)).
    rewrite (collect_rows_app _ _ _ [ap] l2).
    rewrite !filter_app, !length_app.
    unfold collect_rows at 2. simpl.
    fold (technique_rows dom (tactics_by_shortname_of stix) kck ap).
    rewrite technique_rows_retained by done.
    rewrite filter_app, length_app.
    apply count_row_elem_of in Hr1, Hr2. unfold code_of in *. lia.
  - apply count_row_NoDup.
    + by eapply load_attack_Ok_NoDup.
    + by apply (load_attack_Ok_elem_of _ _ _ _ _ _ Hrows).
Qed.

Lemma phase_and_tactic_list_give_one_row_sample :
  ∃ t rows,
    tactics_by_shortname_of sample_stix !! Some "execution" = Some t ∧
    load_attack "enterprise-attack" sample_stix sample_matrix
      ["mitre-attack"] = Ok rows ∧
    2 ≤ length (filter
                  (λ r, r = Row (ByShortname.tactic_name t)
                                (ByShortname.tactic_id t)
                                (default "" (obj_name native_api))
                                (code_of native_api))
                  (collect_rows "enterprise-attack"
                     (tactics_by_shortname_of sample_stix) ["mitre-attack"]
                     (stix_objects sample_stix))) ∧
    length (filter
              (λ r, r = Row (ByShortname.tactic_name t)
                            (ByShortname.tactic_id t)
                            (default "" (obj_name native_api))
                            (code_of native_api))
              rows) = 1.
Proof.
  apply (phase_and_tactic_list_give_one_row "enterprise-attack" sample_stix
           sample_matrix ["mitre-attack"]
           (tactic_object "x-mitre-tactic--2" "execution" "Execution" "TA0002")
           native_api (Phase (Some "mitre-attack") (Some "execution"))
           "execution").
  - apply list_elem_of_further, list_elem_of_here.
  - reflexivity.
  - reflexivity.
  - do 2 apply list_elem_of_further. apply list_elem_of_here.
  - vm_compute; reflexivity.
  - apply list_elem_of_here.
  - vm_compute; reflexivity.
  - reflexivity.
  - apply list_elem_of_here.
Defined.

(** C7. The scenario with one technique ["T100"] whose domains include
    ["enterprise-attack"] and whose one phase names the tactic
    ["execution"] returns the one row of "Execution" and that technique. *)
Theorem scenario_yields_one_row t1 t2 code1 code2 tech_name domains :
  "enterprise-attack" ∈ domains →
  load_attack "enterprise-attack"
    (scenario_stix t1 t2 code1 code2 tech_name domains)
    (scenario_matrix t1 t2) ["mitre-attack"] =
  Ok [Row "Execution" code2 tech_name "T100"].
Proof.
  intros Hin.
  assert (bool_decide ("enterprise-attack" ∈ domains) = true) as Hdom
    by (by apply bool_decide_eq_true_2).
  cbv [load_attack collect_rows scenario_stix objects default from_option id
       foldl technique_step technique_object tactic_object obj_type
       x_mitre_domains].
  rewrite Hdom. vm_compute. reflexivity.
Qed.

Lemma scenario_yields_one_row_sample :
  load_attack "enterprise-attack"
    (scenario_stix "x-mitre-tactic--1" "x-mitre-tactic--2" "TA0001" "TA0002"
       "Native API" ["enterprise-attack"; "ics-attack"])
    (scenario_matrix "x-mitre-tactic--1" "x-mitre-tactic--2")
    ["mitre-attack"] =
  Ok [Row "Execution" "TA0002" "Native API" "T100"].
Proof.
  apply (scenario_yields_one_row "x-mitre-tactic--1" "x-mitre-tactic--2"
           "TA0001" "TA0002" "Native API" ["enterprise-attack"; "ics-attack"]).
  apply list_elem_of_here.
Defined.

(** C8. The same scenario with the technique in the domain ["ics-attack"]
    only: no row is appended, and the call does not return an empty table,
    it raises [KeyError] at line 92. *)
Theorem scenario_other_domain_raises t1 t2 code1 code2 tech_name :
  load_attack "enterprise-attack"
    (scenario_stix t1 t2 code1 code2 tech_name ["ics-attack"])
    (scenario_matrix t1 t2) ["mitre-attack"] =
  Raise (KeyError "tactic_name").
Proof. vm_compute. reflexivity. Qed.

(** C9. The code of a tactic object (lines 26-30) and of an attack pattern
    (lines 52-56) is computed by [resolve_code] from the object's
    [external_references].  It is the [external_id] of the first reference
    whose [source_name] is ["mitre-attack"] (the empty string when that
    reference has no [external_id]), whatever references follow it, and
    the empty string when no reference has that source. *)
Theorem resolve_code_first_mitre_reference :
  (∀ (pre post : list ext_ref) (ref : ext_ref),
     Forall (λ r, source_name r ≠ Some "mitre-attack") pre →
     source_name ref = Some "mitre-attack" →
     resolve_code (pre ++ ref :: post) = default "" (external_id ref)) ∧
  (∀ refs : list ext_ref,
     Forall (λ r, source_name r ≠ Some "mitre-attack") refs →
     resolve_code refs = "") ∧
  (∀ tabs obj,
     obj_type obj = Some "x-mitre-tactic" →
     ById.tactic_id <$> (tactic_step tabs obj).1 !! obj_id obj =
       Some (resolve_code (default [] (external_references obj))) ∧
     ByShortname.tactic_id <$>
         (tactic_step tabs obj).2 !! x_mitre_shortname obj =
       Some (resolve_code (default [] (external_references obj)))) ∧
  (∀ dom tbs kck obj r,
     r ∈ technique_rows dom tbs kck obj →
     technique_id r = resolve_code (default [] (external_references obj))).
Proof.
  split; [|split; [|split]].
  - intros pre post ref Hpre Href.
    induction Hpre as [|r pre Hr _ IH]; simpl.
    + by rewrite bool_decide_eq_true_2.
    + by rewrite bool_decide_eq_false_2.
  - intros refs Hrefs. induction Hrefs as [|r refs Hr _ IH]; simpl; [done|].
    by rewrite bool_decide_eq_false_2.
  - intros tabs obj Htype. unfold tactic_step.
    rewrite bool_decide_eq_true_2 by done. simpl.
    by rewrite !lookup_insert_eq.
  - intros dom tbs kck obj r Hr.
    destruct (retained dom obj) eqn:Hret.
    + by destruct (technique_rows_technique _ _ _ _ _ Hret Hr).
    + rewrite technique_rows_not_retained in Hr by done.
      by apply elem_of_nil in Hr.
Qed.

(** A first reference of another source is passed over, and nothing after
    the first ["mitre-attack"] reference is read. *)
Example resolve_code_sample :
  resolve_code [ExtRef (Some "capec") (Some "CAPEC-1");
                ExtRef (Some "mitre-attack") (Some "T1106");
                ExtRef (Some "mitre-attack") (Some "T9999")] = "T1106".
Proof. reflexivity. Qed.

(** C10, as the code has it.  Every tactic object without
    [x_mitre_shortname] is stored under the key [None] of
    [tactics_by_shortname] and overwrites the one stored there before, so
    that the key holds the last of them.  An accepted [kill_chain_phases]
    entry without [phase_name] of a retained attack pattern finds that last
    tactic, the call returns, and the row that joins the last tactic
    without shortname and the technique is in the table. *)
Theorem last_shortnameless_tactic_joins_phase_without_name
    dom stix matrix kck tac ap ph :
  last_tactic_with None (stix_objects stix) tac →
  ap ∈ stix_objects stix →
  retained dom ap = true →
  ph ∈ default [] (kill_chain_phases ap) →
  in_kill_chain_key kck (kill_chain_name ph) = true →
  phase_name ph = None →
  tactics_by_shortname_of stix !! None =
    Some (ByShortname.Entry (default "" (obj_name tac)) (code_of tac)) ∧
  ∃ rows, load_attack dom stix matrix kck = Ok rows ∧
          joined_row tac ap ∈ rows.
Proof.
  intros (pre & post & Hobjs & Htype & Hshort & Hlast) Hap Hret Hph Hacc Hname.
  pose proof (tactics_by_shortname_None_last _ _ _ _ Hobjs Htype Hshort Hlast)
    as Hlook.
  split; [done|].
  assert (joined_row tac ap ∈
            collect_rows dom (tactics_by_shortname_of stix) kck
              (stix_objects stix)) as Hr.
  { apply elem_of_collect_rows. exists ap. split; [done|]. split; [done|].
    rewrite technique_rows_retained by done. apply elem_of_app. left.
    apply list_elem_of_bind. exists ph. split; [|done].
    apply elem_of_phase_rows. split; [done|].
    apply elem_of_emitted. rewrite Hname. eexists. split; [exact Hlook|done]. }
  destruct (load_attack_returns _ _ matrix _ _ Hr) as [rows Hrows].
  exists rows. split; [done|].
  by apply (load_attack_Ok_elem_of _ _ _ _ _ _ Hrows).
Qed.

Lemma last_shortnameless_tactic_joins_phase_without_name_sample :
  tactics_by_shortname_of two_shortnameless_stix !! None =
    Some (ByShortname.Entry
            (default "" (obj_name later_shortnameless_tactic))
            (code_of later_shortnameless_tactic)) ∧
  ∃ rows,
    load_attack "enterprise-attack" two_shortnameless_stix sample_matrix
      ["mitre-attack"] = Ok rows ∧
    joined_row later_shortnameless_tactic phaseless_technique ∈ rows.
Proof.
  apply (last_shortnameless_tactic_joins_phase_without_name
           "enterprise-attack" two_shortnameless_stix sample_matrix
           ["mitre-attack"] later_shortnameless_tactic phaseless_technique
           nameless_phase).
  - exists [shortnameless_tactic], [phaseless_technique].
    split; [reflexivity|]. split; [reflexivity|]. split; [reflexivity|].
    intros obj Hin Htype. apply list_elem_of_singleton in Hin.
    rewrite Hin in Htype. discriminate Htype.
  - do 2 apply list_elem_of_further. apply list_elem_of_here.
  - vm_compute; reflexivity.
  - apply list_elem_of_here.
  - vm_compute; reflexivity.
  - reflexivity.
Defined.

(** C10, as the claim has it, fails for a tactic without shortname that is
    not the last one: the later one has taken the key [None], and the row
    of the earlier one is not in the table. *)
Lemma earlier_shortnameless_tactic_row_missing :
  shortnameless_tactic ∈ stix_objects two_shortnameless_stix ∧
  obj_type shortnameless_tactic = Some "x-mitre-tactic" ∧
  x_mitre_shortname shortnameless_tactic = None ∧
  phaseless_technique ∈ stix_objects two_shortnameless_stix ∧
  retained "enterprise-attack" phaseless_technique = true ∧
  nameless_phase ∈ default [] (kill_chain_phases phaseless_technique) ∧
  in_kill_chain_key ["mitre-attack"] (kill_chain_name nameless_phase) = true ∧
  phase_name nameless_phase = None ∧
  tactics_by_shortname_of two_shortnameless_stix !! None ≠
    Some (ByShortname.Entry (default "" (obj_name shortnameless_tactic))
                            (code_of shortnameless_tactic)) ∧
  ∃ rows,
    load_attack "enterprise-attack" two_shortnameless_stix sample_matrix
      ["mitre-attack"] = Ok rows ∧
    joined_row shortnameless_tactic phaseless_technique ∉ rows.
Proof.
  split; [apply list_elem_of_here|].
  split; [reflexivity|]. split; [reflexivity|].
  split; [do 2 apply list_elem_of_further; apply list_elem_of_here|].
  split; [vm_compute; reflexivity|].
  split; [apply list_elem_of_here|].
  split; [vm_compute; reflexivity|]. split; [reflexivity|].
  split; [vm_compute; discriminate|].
  eexists. split; [vm_compute; reflexivity|].
  intros Hin. apply list_elem_of_singleton in Hin. discriminate Hin.
Qed.

(** * Further properties of [load_attack] *)

(** ** The lookup by shortname, read off the bundle *)

Lemma last_tactic_with_snoc_other short objs obj tac :
  (obj_type obj = Some "x-mitre-tactic" → x_mitre_shortname obj ≠ short) →
  last_tactic_with short objs tac →
  last_tactic_with short (objs ++ [obj]) tac.
Proof.
  intros Hobj (pre & post & -> & Htype & Hshort & Hlast).
  exists pre, (post ++ [obj]). split; [by rewrite <-app_assoc|].
  split; [done|]. split; [done|].
  intros o [Ho|Ho]%elem_of_app; [by apply Hlast|].
  apply list_elem_of_singleton in Ho as ->. done.
Qed.

(** The entry of a shortname is that of the last tactic object with it. *)
Lemma tactics_by_shortname_of_last stix short t :
  tactics_by_shortname_of stix !! short = Some t ↔
  ∃ tac, last_tactic_with short (stix_objects stix) tac ∧
         t = ByShortname.Entry (default "" (obj_name tac)) (code_of tac).
Proof.
  unfold tactics_by_shortname_of. split.
  - generalize (stix_objects stix). intros objs. revert t.
    induction objs as [|obj objs IH] using rev_ind; intros t.
    + unfold build_tactics. simpl. by rewrite lookup_empty.
    + rewrite build_tactics_snoc.
      destruct (decide (obj_type obj = Some "x-mitre-tactic")) as [Ht|Ht].
      * rewrite tactic_step_tables by done. simpl.
        destruct (decide (x_mitre_shortname obj = short)) as [<-|Hk].
        -- rewrite lookup_insert_eq. intros [= <-]. exists obj. split; [|done].
           exists objs, []. repeat split; try done.
           intros o Ho. by apply elem_of_nil in Ho.
        -- rewrite lookup_insert_ne by done. intros H.
           apply IH in H as (tac & Hlast & ->). exists tac. split; [|done].
           by apply last_tactic_with_snoc_other.
      * rewrite tactic_step_other by done. intros H.
        apply IH in H as (tac & Hlast & ->). exists tac. split; [|done].
        by apply last_tactic_with_snoc_other.
  - intros (tac & (pre & post & -> & Htype & <- & Hlast) & ->).
    by apply build_tactics_shortname_last.
Qed.

(** X9. [tactics_by_shortname] maps a shortname to the name and the code of
    the last tactic object of the bundle that has it, and has no entry
    exactly for the shortnames that no tactic object has. *)
Theorem tactics_by_shortname_lookup stix short :
  (∀ t, tactics_by_shortname_of stix !! short = Some t ↔
        ∃ tac, last_tactic_with short (stix_objects stix) tac ∧
               t = ByShortname.Entry (default "" (obj_name tac))
                                     (code_of tac)) ∧
  (tactics_by_shortname_of stix !! short = None ↔
   ∀ obj, obj ∈ stix_objects stix →
          obj_type obj = Some "x-mitre-tactic" →
          x_mitre_shortname obj ≠ short).
Proof.
  split; [intros t; apply tactics_by_shortname_of_last|]. split.
  - intros Hnone obj Hobj Htype Hshort.
    destruct (build_tactics_shortname_is_Some _ _ Hobj Htype) as [t Ht].
    rewrite Hshort in Ht. unfold tactics_by_shortname_of in Hnone. congruence.
  - intros Hall.
    destruct (tactics_by_shortname_of stix !! short) as [t|] eqn:Ht; [|done].
    apply tactics_by_shortname_origin in Ht
      as (obj & Hobj & Htype & Hshort & _).
    by destruct (Hall obj Hobj Htype).
Qed.

Example tactics_by_shortname_lookup_sample :
  tactics_by_shortname_of sample_stix !! Some "execution" =
    Some (ByShortname.Entry "Execution" "TA0002") ∧
  tactics_by_shortname_of sample_stix !! Some "impact" = None.
Proof. split; vm_compute; reflexivity. Qed.

(** ** The rows of the result, read off the bundle *)

Lemma truthy_false v : truthy v = false ↔ v ≠ Some true.
Proof. destruct v as [[]|]; simpl; split; congruence. Qed.

Lemma retained_passes_filters dom obj :
  retained dom obj = true ↔ passes_filters dom obj.
Proof.
  unfold retained, passes_filters.
  rewrite !andb_true_iff, !negb_true_iff, !orb_false_iff, !truthy_false,
    !bool_decide_eq_true.
  fold (code_of obj).
  rewrite <-(not_true_iff_false (str_is_empty _)), str_is_empty_spec.
  rewrite <-(not_true_iff_false (str_in _ _)), str_in_dot.
  tauto.
Qed.

Lemma in_kill_chain_key_true kck v :
  in_kill_chain_key kck v = true ↔ ∃ kc, v = Some kc ∧ kc ∈ kck.
Proof.
  destruct v as [kc|]; simpl.
  - rewrite bool_decide_eq_true. split; [by exists kc | by intros (? & [= <-] & ?)].
  - split; [done | by intros (? & ? & _)].
Qed.

Lemma elem_of_technique_rows dom tbs kck obj r :
  r ∈ technique_rows dom tbs kck obj ↔
  passes_filters dom obj ∧
  ∃ short t, names_shortname kck obj short ∧ tbs !! short = Some t ∧
             r = Row (ByShortname.tactic_name t) (ByShortname.tactic_id t)
                     (default "" (obj_name obj)) (code_of obj).
Proof.
  rewrite <-retained_passes_filters.
  destruct (retained dom obj) eqn:Hret.
  - rewrite technique_rows_retained by done. fold (code_of obj).
    rewrite elem_of_app, !list_elem_of_bind. split.
    + intros [(ph & Hr & Hph)|(s & Hr & Hs)]; (split; [done|]).
      * apply elem_of_phase_rows in Hr as [Hacc Hr].
        apply in_kill_chain_key_true in Hacc as (kc & Hkc & Hin).
        apply elem_of_emitted in Hr as (t & Ht & ->).
        exists (phase_name ph), t. split; [|done]. left. by exists ph, kc.
      * apply elem_of_emitted in Hr as (t & Ht & ->).
        exists (Some s), t. split; [|done]. right. by exists s.
    + intros [_ (short & t & [(ph & kc & Hph & Hkc & Hin & <-)|(s & Hs & ->)]
                  & Ht & ->)].
      * left. exists ph. split; [|done]. apply elem_of_phase_rows. split.
        -- apply in_kill_chain_key_true. by exists kc.
        -- apply elem_of_emitted. by exists t.
      * right. exists s. split; [|done]. apply elem_of_emitted. by exists t.
  - rewrite technique_rows_not_retained by done. rewrite elem_of_nil.
    split; [done | by intros [? _]].
Qed.

Lemma elem_of_collect_rows_produced dom kck stix r :
  r ∈ collect_rows dom (tactics_by_shortname_of stix) kck (stix_objects stix) ↔
  produced dom kck (stix_objects stix) r.
Proof.
  rewrite collect_rows_bind, list_elem_of_bind. unfold produced. split.
  - intros (ap & Hr & Hap).
    apply elem_of_technique_rows in Hr as (Hpass & short & t & Hn & Ht & ->).
    apply tactics_by_shortname_of_last in Ht as (tac & Hlast & ->).
    by exists ap, short, tac.
  - intros (ap & short & tac & Hap & Hpass & Hn & Hlast & ->).
    exists ap. split; [|done]. apply elem_of_technique_rows. split; [done|].
    exists short, (ByShortname.Entry (default "" (obj_name tac)) (code_of tac)).
    split; [done|]. split; [|done].
    apply tactics_by_shortname_of_last. by exists tac.
Qed.

(** The two ways the call ends. *)
Lemma load_attack_cases dom stix matrix kck :
  match load_attack dom stix matrix kck with
  | Ok rows => rows ≠ [] ∧ ∃ r, produced dom kck (stix_objects stix) r
  | Raise e =>
      e = KeyError "tactic_name" ∧
      ∀ r, ¬ produced dom kck (stix_objects stix) r
  end.
Proof.
  destruct (load_attack dom stix matrix kck) as [rows|e] eqn:Hload.
  - pose proof (load_attack_Ok_perm _ _ _ _ _ Hload) as Hperm.
    rewrite load_attack_unfold in Hload.
    destruct (drop_duplicates _) as [|r df] eqn:Hdf; [done|].
    split.
    + intros ->. by apply Permutation_nil_cons in Hperm.
    + exists r. apply elem_of_collect_rows_produced.
      apply elem_of_drop_duplicates. rewrite Hdf. apply list_elem_of_here.
  - rewrite load_attack_unfold in Hload.
    destruct (drop_duplicates _) as [|r' df] eqn:Hdf; [|done].
    injection Hload as <-. split; [done|].
    intros r Hr%elem_of_collect_rows_produced.
    apply (proj1 (drop_duplicates_nil _)) in Hdf. rewrite Hdf in Hr.
    by apply elem_of_nil in Hr.
Qed.

(** X1. The call returns exactly when some attack pattern that passes the
    tests names the shortname of a tactic object of the bundle, and then
    with at least one row; in every other case it raises
    [KeyError("tactic_name")], and it raises nothing else. *)
Theorem load_attack_returns_iff_produced dom stix matrix kck :
  ((∃ rows, load_attack dom stix matrix kck = Ok rows) ↔
   ∃ r, produced dom kck (stix_objects stix) r) ∧
  (load_attack dom stix matrix kck = Raise (KeyError "tactic_name") ↔
   ∀ r, ¬ produced dom kck (stix_objects stix) r) ∧
  (∀ rows, load_attack dom stix matrix kck = Ok rows → rows ≠ []) ∧
  (∀ e, load_attack dom stix matrix kck = Raise e →
        e = KeyError "tactic_name").
Proof.
  pose proof (load_attack_cases dom stix matrix kck) as Hcases.
  destruct (load_attack dom stix matrix kck) as [rows|e].
  - destruct Hcases as [Hne [r Hr]]. split; [|split; [|split]].
    + split; intros _; [by exists r | by exists rows].
    + split; [done|]. intros Hnone. by destruct (Hnone r).
    + by intros rows' [= <-].
    + done.
  - destruct Hcases as [-> Hnone]. split; [|split; [|split]].
    + split; [by intros [rows ?]|]. intros [r Hr]. by destruct (Hnone r).
    + done.
    + done.
    + by intros e [= <-].
Qed.

(** X2. The rows of the returned table are the rows that join an attack
    pattern of the bundle that passes the tests of lines 45-58 with the
    last tactic object of a shortname the pattern names, and no others. *)
Theorem load_attack_rows_produced dom stix matrix kck rows r :
  load_attack dom stix matrix kck = Ok rows →
  r ∈ rows ↔ produced dom kck (stix_objects stix) r.
Proof.
  intros Hload. rewrite (load_attack_Ok_elem_of _ _ _ _ _ _ Hload).
  apply elem_of_collect_rows_produced.
Qed.

Lemma load_attack_rows_produced_sample :
  Row "Execution" "TA0002" "Native API" "T1106" ∈ sample_rows ↔
  produced "enterprise-attack" ["mitre-attack"] (stix_objects sample_stix)
    (Row "Execution" "TA0002" "Native API" "T1106").
Proof.
  apply (load_attack_rows_produced "enterprise-attack" sample_stix
           sample_matrix ["mitre-attack"] sample_rows).
  vm_compute; reflexivity.
Defined.

(** ** The matrix bundle *)

(** The call reads the matrix bundle through [tactic_order] alone. *)
Lemma load_attack_tactic_order dom stix matrix1 matrix2 kck :
  matrix_tactic_order (stix_objects matrix1) =
    matrix_tactic_order (stix_objects matrix2) →
  load_attack dom stix matrix1 kck = load_attack dom stix matrix2 kck.
Proof.
  intros H. rewrite !load_attack_unfold. unfold tactic_sort_order_of.
  by rewrite H.
Qed.

Lemma matrix_tactic_order_first pre m post :
  (∀ obj, obj ∈ pre → obj_type obj ≠ Some "x-mitre-matrix") →
  obj_type m = Some "x-mitre-matrix" →
  matrix_tactic_order (pre ++ m :: post) = default [] (tactic_refs m).
Proof.
  intros Hpre Hm. induction pre as [|obj pre IH]; simpl.
  - by rewrite bool_decide_eq_true_2.
  - rewrite bool_decide_eq_false_2 by (apply Hpre; apply list_elem_of_here).
    apply IH. intros o Ho. apply Hpre. by apply list_elem_of_further.
Qed.

Lemma matrix_tactic_order_none objs :
  (∀ obj, obj ∈ objs → obj_type obj ≠ Some "x-mitre-matrix") →
  matrix_tactic_order objs = [].
Proof.
  intros Hobjs. induction objs as [|obj objs IH]; simpl; [done|].
  rewrite bool_decide_eq_false_2 by (apply Hobjs; apply list_elem_of_here).
  apply IH. intros o Ho. apply Hobjs. by apply list_elem_of_further.
Qed.

(** X3. The matrix bundle decides the order of the rows and nothing else:
    with two matrix bundles the call raises both times, or returns two
    tables with the same rows. *)
Theorem matrix_changes_order_only dom stix matrix1 matrix2 kck :
  match load_attack dom stix matrix1 kck, load_attack dom stix matrix2 kck with
  | Ok rows1, Ok rows2 => rows1 ≡ₚ rows2
  | Raise e1, Raise e2 => e1 = e2
  | _, _ => False
  end.
Proof.
  rewrite !load_attack_unfold.
  destruct (drop_duplicates _) as [|r df]; [done|].
  by rewrite !sort_values_perm.
Qed.

(** X4. The order is taken from the first [x-mitre-matrix] object: the
    objects before it and all objects after it, further matrices among
    them, change nothing. *)
Theorem first_matrix_object_decides dom stix pre m post kck :
  (∀ obj, obj ∈ pre → obj_type obj ≠ Some "x-mitre-matrix") →
  obj_type m = Some "x-mitre-matrix" →
  load_attack dom stix (Bundle (Some (pre ++ m :: post))) kck =
    load_attack dom stix (Bundle (Some [m])) kck.
Proof.
  intros Hpre Hm. apply load_attack_tactic_order.
  unfold stix_objects. simpl objects. simpl default.
  rewrite (matrix_tactic_order_first pre m post) by done.
  symmetry. apply (matrix_tactic_order_first [] m []); [|done].
  intros obj Hobj. by apply elem_of_nil in Hobj.
Qed.

Lemma first_matrix_object_decides_sample :
  load_attack "enterprise-attack" sample_stix
    (Bundle (Some
       ([native_api] ++
        matrix_object ["x-mitre-tactic--1"; "x-mitre-tactic--2"] ::
        [matrix_object ["x-mitre-tactic--2"; "x-mitre-tactic--1"]])))
    ["mitre-attack"] =
  load_attack "enterprise-attack" sample_stix sample_matrix ["mitre-attack"].
Proof.
  apply (first_matrix_object_decides "enterprise-attack" sample_stix
           [native_api]
           (matrix_object ["x-mitre-tactic--1"; "x-mitre-tactic--2"])
           [matrix_object ["x-mitre-tactic--2"; "x-mitre-tactic--1"]]
           ["mitre-attack"]).
  - intros obj Hobj. apply list_elem_of_singleton in Hobj as ->. discriminate.
  - reflexivity.
Defined.

Lemma StronglySorted_impl {A : Type} (R1 R2 : A → A → Prop) (l : list A) :
  (∀ x y, R1 x y → R2 x y) → StronglySorted R1 l → StronglySorted R2 l.
Proof.
  intros HR. induction 1 as [|x l Hs IH Hall]; constructor; [done|].
  eapply Forall_impl; [exact Hall|]. intros y. apply HR.
Qed.

(** X5. When the matrix bundle has no [x-mitre-matrix] object, no row has a
    position, and the returned rows are sorted by [technique_name] alone. *)
Theorem no_matrix_sorted_by_technique_name dom stix matrix kck rows :
  (∀ obj, obj ∈ stix_objects matrix → obj_type obj ≠ Some "x-mitre-matrix") →
  load_attack dom stix matrix kck = Ok rows →
  StronglySorted
    (λ r1 r2, str_lex_le (technique_name r1) (technique_name r2)) rows.
Proof.
  intros Hmatrix Hload.
  pose proof (load_attack_Ok _ _ _ _ _ Hload) as ->.
  eapply StronglySorted_impl; [|apply sort_values_sorted].
  intros r1 r2. unfold key_before, before_by, tactic_sort, tactic_sort_order_of.
  rewrite matrix_tactic_order_none by done.
  unfold build_sort_order. simpl. by rewrite !lookup_empty.
Qed.

Lemma no_matrix_sorted_by_technique_name_sample :
  StronglySorted
    (λ r1 r2, str_lex_le (technique_name r1) (technique_name r2))
    [Row "Execution" "TA0002" "Native API" "T1106";
     Row "Initial Access" "TA0001" "Phishing" "T1566"].
Proof.
  apply (no_matrix_sorted_by_technique_name "enterprise-attack" sample_stix
           empty_bundle ["mitre-attack"]).
  - intros obj Hobj. by apply elem_of_nil in Hobj.
  - vm_compute; reflexivity.
Defined.

(** ** Objects of other types *)

Lemma technique_step_other_type dom tbs kck rows obj :
  obj_type obj ≠ Some "attack-pattern" →
  technique_step dom tbs kck rows obj = rows.
Proof.
  intros H. unfold technique_step. by rewrite bool_decide_eq_false_2.
Qed.

(** X6. An object of the bundle that is neither an [x-mitre-tactic] nor an
    [attack-pattern] is passed over: the call gives what it gives for the
    bundle without the object. *)
Theorem other_objects_ignored dom pre obj post matrix kck :
  obj_type obj ≠ Some "x-mitre-tactic" →
  obj_type obj ≠ Some "attack-pattern" →
  load_attack dom (Bundle (Some (pre ++ obj :: post))) matrix kck =
    load_attack dom (Bundle (Some (pre ++ post))) matrix kck.
Proof.
  intros Htac Hap. rewrite !load_attack_unfold.
  unfold tactic_sort_order_of, tactics_by_id_of, tactics_by_shortname_of,
    stix_objects. simpl.
  rewrite build_tactics_remove by done.
  rewrite (collect_rows_app _ _ _ pre (obj :: post)).
  rewrite (collect_rows_app _ _ _ [obj] post).
  rewrite (collect_rows_app _ _ _ pre post).
  unfold collect_rows at 2. simpl.
  by rewrite technique_step_other_type.
Qed.

Lemma other_objects_ignored_sample :
  load_attack "enterprise-attack"
    (Bundle (Some (sample_head ++
                   matrix_object ["x-mitre-tactic--2"] :: sample_tail)))
    sample_matrix ["mitre-attack"] =
  load_attack "enterprise-attack" (Bundle (Some (sample_head ++ sample_tail)))
    sample_matrix ["mitre-attack"].
Proof.
  apply (other_objects_ignored "enterprise-attack" sample_head
           (matrix_object ["x-mitre-tactic--2"]) sample_tail sample_matrix
           ["mitre-attack"]); discriminate.
Defined.

(** ** The kill chain names *)

Lemma bind_ext_all {A B : Type} (f g : A → list B) (l : list A) :
  (∀ x, f x = g x) → l ≫= f = l ≫= g.
Proof.
  intros Hfg. induction l as [|x l IH]; [done|].
  by rewrite !bind_cons, Hfg, IH.
Qed.

(** X8. Of [kill_chain_key] only the names it holds count, not their order
    or number: two keys with the same names give the same result. *)
Theorem kill_chain_key_as_set dom stix matrix kck1 kck2 :
  (∀ name, name ∈ kck1 ↔ name ∈ kck2) →
  load_attack dom stix matrix kck1 = load_attack dom stix matrix kck2.
Proof.
  intros Hkck.
  assert (∀ v, in_kill_chain_key kck1 v = in_kill_chain_key kck2 v) as Hin.
  { intros [name|]; simpl; [|done]. apply bool_decide_ext, Hkck. }
  rewrite !load_attack_unfold, !collect_rows_bind.
  rewrite (bind_ext_all
             (technique_rows dom (tactics_by_shortname_of stix) kck1)
             (technique_rows dom (tactics_by_shortname_of stix) kck2));
    [done|].
  intros obj. destruct (retained dom obj) eqn:Hret.
  - rewrite !technique_rows_retained by done. f_equal.
    apply bind_ext_all. intros ph. unfold phase_rows, phase_step.
    by rewrite Hin.
  - by rewrite !technique_rows_not_retained.
Qed.

Lemma kill_chain_key_as_set_sample :
  load_attack "enterprise-attack" sample_stix sample_matrix
    ["mitre-attack"; "mitre-enterprise-attack"] =
  load_attack "enterprise-attack" sample_stix sample_matrix
    ["mitre-enterprise-attack"; "mitre-attack"; "mitre-attack"].
Proof.
  apply (kill_chain_key_as_set "enterprise-attack" sample_stix sample_matrix
           ["mitre-attack"; "mitre-enterprise-attack"]
           ["mitre-enterprise-attack"; "mitre-attack"; "mitre-attack"]).
  intros name. set_solver.
Defined.

(** ** Rows that [sort_values] does not order *)

Lemma sort_cell_lt_irrefl a : sort_cell_lt a a = false.
Proof. destruct a as [x|]; simpl; [apply Nat.ltb_irrefl | done]. Qed.

Lemma row_le_tied tso r1 r2 : tied tso r1 r2 → row_le tso r1 r2 = true.
Proof.
  intros [Hsort Hname]. unfold row_le. rewrite Hsort, Hname.
  rewrite sort_cell_lt_irrefl. apply string_leb_lex, str_lex_le_refl.
Qed.

Lemma insert_row_filter_tied tso r0 r df :
  filter (tied tso r0) (insert_row (row_le tso) r df) =
    filter (tied tso r0) (r :: df).
Proof.
  induction df as [|r' df IH]; simpl; [done|].
  destruct (row_le tso r r') eqn:Hle; [done|].
  rewrite (filter_cons _ r'), IH, !(filter_cons _ r), (filter_cons _ r').
  destruct (decide (tied tso r0 r)) as [[H1 H2]|Hr];
    destruct (decide (tied tso r0 r')) as [[H1' H2']|Hr']; try done.
  assert (tied tso r r') as Htied by (split; congruence).
  apply row_le_tied in Htied. congruence.
Qed.

Lemma sort_values_filter_tied tso r0 df :
  filter (tied tso r0) (sort_values tso df) = filter (tied tso r0) df.
Proof.
  unfold sort_values. induction df as [|r df IH]; simpl; [done|].
  by rewrite insert_row_filter_tied, !filter_cons, IH.
Qed.

(** X7. The sort is stable: the returned rows that have the same cell in
    [tactic_sort] and the same technique name as a row [r0] stand in the
    order they have in the frame of line 84. *)
Theorem tied_rows_keep_order dom stix matrix kck rows r0 :
  load_attack dom stix matrix kck = Ok rows →
  filter (tied (tactic_sort_order_of stix matrix) r0) rows =
    filter (tied (tactic_sort_order_of stix matrix) r0)
      (drop_duplicates
         (collect_rows dom (tactics_by_shortname_of stix) kck
            (stix_objects stix))).
Proof. intros ->%load_attack_Ok. apply sort_values_filter_tied. Qed.

Lemma tied_rows_keep_order_sample :
  filter (tied (tactic_sort_order_of tie_stix sample_matrix)
            (Row "Execution" "TA0002" "Native API" "T1106"))
    [Row "Execution" "TA0002" "Native API" "T1106";
     Row "Execution" "TA0002" "Native API" "T1059"] =
  filter (tied (tactic_sort_order_of tie_stix sample_matrix)
            (Row "Execution" "TA0002" "Native API" "T1106"))
    (drop_duplicates
       (collect_rows "enterprise-attack" (tactics_by_shortname_of tie_stix)
          ["mitre-attack"] (stix_objects tie_stix))).
Proof.
  apply (tied_rows_keep_order "enterprise-attack" tie_stix sample_matrix
           ["mitre-attack"]).
  vm_compute; reflexivity.
Defined.

(** * The table of the script *)

(** ** [unique_first] *)

Lemma elem_of_unique_first keys k : k ∈ unique_first keys ↔ k ∈ keys.
Proof.
  induction keys as [|k0 keys IH]; simpl; [done|].
  rewrite !elem_of_cons, list_elem_of_filter, IH.
  destruct (decide (k = k0)); naive_solver.
Qed.

Lemma NoDup_unique_first keys : NoDup (unique_first keys).
Proof.
  induction keys as [|k0 keys IH]; simpl; [constructor|].
  apply NoDup_cons. split.
  - rewrite list_elem_of_filter. naive_solver.
  - by apply NoDup_filter.
Qed.

Lemma filter_all {A : Type} (P : A → Prop) `{∀ x, Decision (P x)}
    (l : list A) :
  (∀ x, P x) → filter P l = l.
Proof.
  intros HP. induction l as [|x l IH]; [done|].
  by rewrite filter_cons_True, IH.
Qed.

Lemma unique_first_app keys1 keys2 :
  unique_first (keys1 ++ keys2) =
    unique_first keys1 ++ filter (λ k, k ∉ keys1) (unique_first keys2).
Proof.
  induction keys1 as [|k0 keys1 IH]; simpl.
  - symmetry. apply filter_all. intros k. apply not_elem_of_nil.
  - f_equal. rewrite IH, filter_app. f_equal.
    rewrite list_filter_filter. apply list_filter_iff.
    intros k. rewrite not_elem_of_cons. tauto.
Qed.

Lemma length_unique_first keys :
  length (unique_first keys) = size (list_to_set keys : gset string).
Proof.
  rewrite <-(size_list_to_set (C := gset string) (unique_first keys))
    by apply NoDup_unique_first.
  f_equal. apply set_eq. intros k.
  by rewrite !elem_of_list_to_set, elem_of_unique_first.
Qed.

(** The place of the first occurrence of a key in [unique_first]. *)
Lemma unique_first_lookup pre k post :
  k ∉ pre →
  unique_first (pre ++ k :: post) !!
    size (list_to_set pre : gset string) = Some k.
Proof.
  intros Hk. rewrite unique_first_app, <-length_unique_first. simpl.
  rewrite filter_cons_True by done. by rewrite list_lookup_middle.
Qed.

(** ** [merge] on the frame of the unique keys *)

Lemma filter_key_not_elem_of (k : string) (u : list string) (ns : list nat) :
  k ∉ u → filter (λ p : string * nat, p.1 = k) (zip u ns) = [].
Proof.
  revert ns. induction u as [|k0 u IH]; intros ns Hk; [done|].
  apply not_elem_of_cons in Hk as [Hne Hk].
  destruct ns as [|n ns]; [done|]. simpl.
  rewrite filter_cons_False by (simpl; congruence). by apply IH.
Qed.

Lemma filter_key_unique (k : string) (u : list string) (start i : nat) :
  NoDup u → u !! i = Some k →
  filter (λ p : string * nat, p.1 = k) (zip u (seq start (length u))) =
    [(k, start + i)].
Proof.
  intros Hu. revert start i.
  induction Hu as [|k0 u Hk0 Hu IH]; intros start i Hi; [done|].
  simpl. destruct i as [|i]; simpl in Hi.
  - injection Hi as ->. rewrite filter_cons_True by done.
    rewrite filter_key_not_elem_of by done. by rewrite Nat.add_0_r.
  - rewrite filter_cons_False.
    + rewrite (IH (S start) i) by done. do 2 f_equal. lia.
    + simpl. intros ->. apply Hk0. by eapply list_elem_of_lookup_2.
Qed.

Lemma bind_singleton_fmap {A B : Type} (f : A → list B) (g : A → B)
    (l : list A) :
  (∀ x, x ∈ l → f x = [g x]) → l ≫= f = g <$> l.
Proof.
  induction l as [|x l IH]; intros Hf; [done|].
  rewrite bind_cons, fmap_cons, Hf by apply list_elem_of_here. simpl.
  f_equal. apply IH. intros y Hy. apply Hf. by apply list_elem_of_further.
Qed.

(** The number [unique_tactics] has for a key. *)
Lemma unique_tactics_order combined_df :
  ∃ order : string → nat,
    (∀ r, r ∈ combined_df →
          filter (λ p, p.1 = tactics_with_code r) (unique_tactics combined_df) =
            [(tactics_with_code r, order (tactics_with_code r))]) ∧
    (∀ pre k post,
       tactics_with_code <$> combined_df = pre ++ k :: post → k ∉ pre →
       order k = S (size (list_to_set pre : gset string))) ∧
    (∀ k1 k2,
       k1 ∈ tactics_with_code <$> combined_df →
       k2 ∈ tactics_with_code <$> combined_df →
       order k1 = order k2 → k1 = k2) ∧
    (∀ k,
       k ∈ tactics_with_code <$> combined_df →
       1 ≤ order k ≤
         size (list_to_set (tactics_with_code <$> combined_df) : gset string)).
Proof.
  set (keys := tactics_with_code <$> combined_df).
  set (u := unique_first keys).
  exists (λ k, from_option (λ p, S p.1) 0 (list_find (λ k', k' = k) u)).
  assert (∀ k i, u !! i = Some k →
            list_find (λ k', k' = k) u = Some (i, k)) as Hfind.
  { intros k i Hi. apply list_find_Some. split; [done|]. split; [done|].
    intros j y Hj Hlt ->.
    pose proof (NoDup_lookup _ _ _ _ (NoDup_unique_first keys) Hi Hj). lia. }
  split; [|split; [|split]].
  - intros r Hr.
    assert (tactics_with_code r ∈ u) as Hin.
    { apply elem_of_unique_first, list_elem_of_fmap. by exists r. }
    apply list_elem_of_lookup in Hin as [i Hi].
    unfold unique_tactics. fold keys. fold u.
    rewrite (filter_key_unique _ _ 1 i) by (apply NoDup_unique_first || done).
    by rewrite (Hfind _ _ Hi).
  - intros pre k post Hkeys Hk.
    pose proof (unique_first_lookup pre k post Hk) as Hi.
    rewrite <-Hkeys in Hi. fold u in Hi. by rewrite (Hfind _ _ Hi).
  - intros k1 k2 Hk1%elem_of_unique_first Hk2%elem_of_unique_first.
    fold u in Hk1, Hk2.
    apply list_elem_of_lookup in Hk1 as [i1 Hi1].
    apply list_elem_of_lookup in Hk2 as [i2 Hi2].
    rewrite (Hfind _ _ Hi1), (Hfind _ _ Hi2). simpl. intros [= <-].
    congruence.
  - intros k Hk%elem_of_unique_first. fold u in Hk.
    apply list_elem_of_lookup in Hk as [i Hi].
    rewrite (Hfind _ _ Hi). simpl.
    apply lookup_lt_Some in Hi. unfold u in Hi.
    rewrite length_unique_first in Hi. lia.
Qed.

(** ** [cumcount] *)

Lemma length_cumcount seen keys : length (cumcount seen keys) = length keys.
Proof.
  revert seen. induction keys as [|k keys IH]; intros seen; simpl; [done|].
  by rewrite IH.
Qed.

(** ** The table, row by row *)

(** The row of the table for a row of the combined frame, its number in
    [unique_tactics] and its count. *)
Lemma key_table_rows enterprise_df ics_df :
  ∃ order : string → nat,
    key_table enterprise_df ics_df =
      zip_with
        (λ (r : tagged_row) count,
           KeyRow (ent_ics r +:+ tactic_name (row_of r)
                     +:+ technique_name (row_of r))
                  (ent_ics r) (tactic_name (row_of r))
                  (technique_name (row_of r))
                  (Some (order (tactics_with_code r))) (count + 1)
                  (tactic_id (row_of r)) (technique_id (row_of r))
                  (tactics_with_code r)
                  (with_code (technique_name (row_of r))
                             (technique_id (row_of r))))
        (add_domain_column "ENT" enterprise_df ++
         add_domain_column "ICS" ics_df)
        (cumcount []
           (tactics_with_code <$>
              (add_domain_column "ENT" enterprise_df ++
               add_domain_column "ICS" ics_df))) ∧
    (∀ pre k post,
       tactics_with_code <$>
         (add_domain_column "ENT" enterprise_df ++
          add_domain_column "ICS" ics_df) = pre ++ k :: post →
       k ∉ pre →
       order k = S (size (list_to_set pre : gset string))) ∧
    (∀ k1 k2,
       k1 ∈ tactics_with_code <$>
              (add_domain_column "ENT" enterprise_df ++
               add_domain_column "ICS" ics_df) →
       k2 ∈ tactics_with_code <$>
              (add_domain_column "ENT" enterprise_df ++
               add_domain_column "ICS" ics_df) →
       order k1 = order k2 → k1 = k2) ∧
    (∀ k,
       k ∈ tactics_with_code <$>
             (add_domain_column "ENT" enterprise_df ++
              add_domain_column "ICS" ics_df) →
       1 ≤ order k ≤
         size (list_to_set
                 (tactics_with_code <$>
                    (add_domain_column "ENT" enterprise_df ++
                     add_domain_column "ICS" ics_df)) : gset string)).
Proof.
  set (combined_df := add_domain_column "ENT" enterprise_df ++
                      add_domain_column "ICS" ics_df).
  destruct (unique_tactics_order combined_df) as (order & Hfilter & Horder).
  exists order. split; [|done].
  unfold key_table. fold combined_df. cbv zeta.
  assert (merge_left combined_df (unique_tactics combined_df) =
            (λ r, (r, Some (order (tactics_with_code r)))) <$> combined_df)
    as ->.
  { unfold merge_left. apply bind_singleton_fmap. intros r Hr.
    by rewrite (Hfilter r Hr). }
  rewrite <-list_fmap_compose. rewrite zip_with_fmap_l. done.
Qed.

Lemma fmap_zip_with_l {A B C D : Type} (f : C → D) (g : A → B → C)
    (h : A → D) (l : list A) (k : list B) :
  length k = length l → (∀ x y, f (g x y) = h x) →
  f <$> zip_with g l k = h <$> l.
Proof.
  intros Hlen Hf. revert k Hlen.
  induction l as [|x l IH]; intros [|y k] Hlen; simpl in *; try done.
  rewrite Hf. f_equal. apply IH. lia.
Qed.

Lemma Forall_zip_with_all {A B C : Type} (P : C → Prop) (g : A → B → C)
    (l : list A) (k : list B) :
  (∀ x y, P (g x y)) → Forall P (zip_with g l k).
Proof.
  intros HP. revert k. induction l as [|x l IH]; intros [|y k]; simpl;
    by constructor.
Qed.

Lemma row_of_add_domain_column domain df :
  row_of <$> add_domain_column domain df = df.
Proof.
  unfold add_domain_column. rewrite <-list_fmap_compose. apply list_fmap_id.
Qed.

Lemma ent_ics_add_domain_column domain df :
  ent_ics <$> add_domain_column domain df = replicate (length df) domain.
Proof.
  unfold add_domain_column. induction df as [|r df IH]; [done|].
  rewrite !fmap_cons. simpl. f_equal. exact IH.
Qed.

Lemma key_table_keys enterprise_df ics_df :
  Tactics_With_Code <$> key_table enterprise_df ics_df =
    tactics_with_code <$>
      (add_domain_column "ENT" enterprise_df ++ add_domain_column "ICS" ics_df).
Proof.
  destruct (key_table_rows enterprise_df ics_df) as (order & -> & _).
  apply fmap_zip_with_l; [|done].
  by rewrite length_cumcount, length_fmap.
Qed.

(** X10. The table has one row for every row of the enterprise table and
    then one for every row of the ICS table, in their order and with their
    four columns: the merge of line 191 drops no row, repeats none and
    leaves no [Tactics_Order] empty.  The other columns are made of these
    as lines 185-187 say. *)
Theorem key_table_keeps_rows enterprise_df ics_df :
  (λ t, Row (Tactics t) (Tactics_Code t) (Techniques t) (Techniques_Code t))
    <$> key_table enterprise_df ics_df = enterprise_df ++ ics_df ∧
  ENT_ICS <$> key_table enterprise_df ics_df =
    replicate (length enterprise_df) "ENT" ++
    replicate (length ics_df) "ICS" ∧
  Forall
    (λ t, is_Some (Tactics_Order t) ∧
          TT_Key t = ENT_ICS t +:+ Tactics t +:+ Techniques t ∧
          Tactics_With_Code t = with_code (Tactics t) (Tactics_Code t) ∧
          Techniques_With_Code t =
            with_code (Techniques t) (Techniques_Code t))
    (key_table enterprise_df ics_df).
Proof.
  destruct (key_table_rows enterprise_df ics_df) as (order & -> & _).
  assert (length
            (cumcount []
               (tactics_with_code <$>
                  (add_domain_column "ENT" enterprise_df ++
                   add_domain_column "ICS" ics_df))) =
          length (add_domain_column "ENT" enterprise_df ++
                  add_domain_column "ICS" ics_df)) as Hlen
    by (by rewrite length_cumcount, length_fmap).
  split; [|split].
  - rewrite (fmap_zip_with_l _ _ row_of) by (done || by intros [[] ?] ?).
    by rewrite fmap_app, !row_of_add_domain_column.
  - rewrite (fmap_zip_with_l _ _ ent_ics) by done.
    by rewrite fmap_app, !ent_ics_add_domain_column.
  - apply Forall_zip_with_all. intros r count. simpl. by split; [eexists|].
Qed.

(** X11. [Tactics_Order] numbers the tactics in the order of their first
    row: a row whose tactic with code first stands at row [m] of the table
    has one more than the number of different tactics with code in the
    rows before [m]. *)
Theorem tactics_order_first_appearance enterprise_df ics_df n m t :
  key_table enterprise_df ics_df !! n = Some t →
  (Tactics_With_Code <$> key_table enterprise_df ics_df) !! m =
    Some (Tactics_With_Code t) →
  Tactics_With_Code t ∉
    take m (Tactics_With_Code <$> key_table enterprise_df ics_df) →
  Tactics_Order t =
    Some (S (size (list_to_set
                     (take m (Tactics_With_Code <$>
                                key_table enterprise_df ics_df))
                   : gset string))).
Proof.
  rewrite key_table_keys.
  destruct (key_table_rows enterprise_df ics_df) as (order & -> & Horder & _).
  intros Ht Hm Hfirst.
  apply lookup_zip_with_Some in Ht as (r & count & -> & _ & _).
  simpl in *. f_equal. eapply Horder; [|done].
  symmetry. by apply take_drop_middle.
Qed.

Lemma tactics_order_first_appearance_sample :
  Tactics_Order
    (KeyRow "ICSCollectionScreen Capture" "ICS" "Collection" "Screen Capture"
       (Some 3) 1 "TA0100" "T0852" "Collection (TA0100)"
       "Screen Capture (T0852)") =
  Some (S (size (list_to_set
                   (take 2 (Tactics_With_Code <$>
                              key_table sample_rows
                                [Row "Collection" "TA0100" "Screen Capture"
                                     "T0852";
                                 Row "Execution" "TA0104" "Native API"
                                     "T0834"]))
                 : gset string))).
Proof.
  apply (tactics_order_first_appearance sample_rows
           [Row "Collection" "TA0100" "Screen Capture" "T0852";
            Row "Execution" "TA0104" "Native API" "T0834"] 2 2).
  - vm_compute; reflexivity.
  - vm_compute; reflexivity.
  - vm_compute. intros H.
    repeat (apply elem_of_cons in H as [H|H]; [discriminate H|]).
    by apply elem_of_nil in H.
Defined.

(** X12. Two rows of the table have the same [Tactics_Order] exactly when
    they have the same tactic with code, and the numbers run from 1 to the
    number of different tactics with code. *)
Theorem tactics_order_same_iff enterprise_df ics_df t1 t2 :
  t1 ∈ key_table enterprise_df ics_df →
  t2 ∈ key_table enterprise_df ics_df →
  (Tactics_Order t1 = Tactics_Order t2 ↔
   Tactics_With_Code t1 = Tactics_With_Code t2) ∧
  ∃ n, Tactics_Order t1 = Some n ∧
       1 ≤ n ≤ size (list_to_set
                       (Tactics_With_Code <$> key_table enterprise_df ics_df)
                     : gset string).
Proof.
  rewrite key_table_keys.
  destruct (key_table_rows enterprise_df ics_df)
    as (order & -> & _ & Hinj & Hbound).
  intros [n1 Ht1]%list_elem_of_lookup [n2 Ht2]%list_elem_of_lookup.
  apply lookup_zip_with_Some in Ht1 as (r1 & c1 & -> & Hr1 & _).
  apply lookup_zip_with_Some in Ht2 as (r2 & c2 & -> & Hr2 & _).
  simpl.
  assert (∀ r i,
            (add_domain_column "ENT" enterprise_df ++
             add_domain_column "ICS" ics_df) !! i = Some r →
            tactics_with_code r ∈
              tactics_with_code <$>
                (add_domain_column "ENT" enterprise_df ++
                 add_domain_column "ICS" ics_df)) as Hin.
  { intros r i Hr. apply list_elem_of_fmap. exists r. split; [done|].
    by eapply list_elem_of_lookup_2. }
  split.
  - split.
    + intros [= Heq]. eapply Hinj; eauto.
    + by intros ->.
  - exists (order (tactics_with_code r1)). split; [done|]. eapply Hbound, Hin.
    exact Hr1.
Qed.

Lemma tactics_order_same_iff_sample :
  (Tactics_Order
     (KeyRow "ENTExecutionNative API" "ENT" "Execution" "Native API"
        (Some 2) 1 "TA0002" "T1106" "Execution (TA0002)" "Native API (T1106)") =
   Tactics_Order
     (KeyRow "ENTInitial AccessPhishing" "ENT" "Initial Access" "Phishing"
        (Some 1) 1 "TA0001" "T1566" "Initial Access (TA0001)"
        "Phishing (T1566)") ↔
   Tactics_With_Code
     (KeyRow "ENTExecutionNative API" "ENT" "Execution" "Native API"
        (Some 2) 1 "TA0002" "T1106" "Execution (TA0002)" "Native API (T1106)") =
   Tactics_With_Code
     (KeyRow "ENTInitial AccessPhishing" "ENT" "Initial Access" "Phishing"
        (Some 1) 1 "TA0001" "T1566" "Initial Access (TA0001)"
        "Phishing (T1566)")) ∧
  ∃ n, Tactics_Order
         (KeyRow "ENTExecutionNative API" "ENT" "Execution" "Native API"
            (Some 2) 1 "TA0002" "T1106" "Execution (TA0002)"
            "Native API (T1106)") = Some n ∧
       1 ≤ n ≤ size (list_to_set
                       (Tactics_With_Code <$> key_table sample_rows [])
                     : gset string).
Proof.
  apply (tactics_order_same_iff sample_rows []).
  - vm_compute. apply list_elem_of_further, list_elem_of_here.
  - vm_compute. apply list_elem_of_here.
Defined.

Lemma cumcount_group k rows seen :
  Techniques_Order <$>
    filter (λ t, Tactics_With_Code t = k)
      (zip_with
         (λ (r : tagged_row) count,
            KeyRow (ent_ics r +:+ tactic_name (row_of r)
                      +:+ technique_name (row_of r))
                   (ent_ics r) (tactic_name (row_of r))
                   (technique_name (row_of r))
                   (rows.1 (tactics_with_code r)) (count + 1)
                   (tactic_id (row_of r)) (technique_id (row_of r))
                   (tactics_with_code r)
                   (with_code (technique_name (row_of r))
                              (technique_id (row_of r))))
         rows.2 (cumcount seen (tactics_with_code <$> rows.2))) =
  seq (S (length (filter (λ k', k' = k) seen)))
      (length (filter (λ r, tactics_with_code r = k) rows.2)).
Proof.
  destruct rows as [order rs]. simpl. revert seen.
  induction rs as [|r rs IH]; intros seen; [done|].
  simpl. rewrite !filter_cons. simpl.
  destruct (decide (tactics_with_code r = k)) as [<-|Hne].
  - simpl. rewrite IH. rewrite filter_cons_True by done. simpl.
    f_equal. lia.
  - rewrite IH. by rewrite filter_cons_False by done.
Qed.

Lemma cumcount_group_length k rows seen :
  length
    (filter (λ t, Tactics_With_Code t = k)
       (zip_with
          (λ (r : tagged_row) count,
             KeyRow (ent_ics r +:+ tactic_name (row_of r)
                       +:+ technique_name (row_of r))
                    (ent_ics r) (tactic_name (row_of r))
                    (technique_name (row_of r))
                    (rows.1 (tactics_with_code r)) (count + 1)
                    (tactic_id (row_of r)) (technique_id (row_of r))
                    (tactics_with_code r)
                    (with_code (technique_name (row_of r))
                               (technique_id (row_of r))))
          rows.2 (cumcount seen (tactics_with_code <$> rows.2)))) =
  length (filter (λ r, tactics_with_code r = k) rows.2).
Proof.
  destruct rows as [order rs]. simpl. revert seen.
  induction rs as [|r rs IH]; intros seen; [done|].
  simpl. rewrite !filter_cons. simpl.
  destruct (decide (tactics_with_code r = k)); simpl; by rewrite IH.
Qed.

(** X13. [Techniques_Order] counts the rows of each tactic with code from 1
    in the order of the table: the rows of one tactic with code have the
    numbers 1, 2, ... up to their number. *)
Theorem techniques_order_counts_group enterprise_df ics_df k :
  Techniques_Order <$>
    filter (λ t, Tactics_With_Code t = k) (key_table enterprise_df ics_df) =
  seq 1 (length (filter (λ t, Tactics_With_Code t = k)
                        (key_table enterprise_df ics_df))).
Proof.
  destruct (key_table_rows enterprise_df ics_df) as (order & -> & _).
  etrans;
    [apply (cumcount_group k
              (λ key, Some (order key),
               add_domain_column "ENT" enterprise_df ++
               add_domain_column "ICS" ics_df) [])|].
  simpl. f_equal. symmetry.
  apply (cumcount_group_length k
           (λ key, Some (order key),
            add_domain_column "ENT" enterprise_df ++
            add_domain_column "ICS" ics_df) []).
Qed.

(** * The script *)

(** ** [fetch_json_or_error] *)

(** The messages a fetch adds and the value it returns do not depend on
    the messages before. *)
Lemma fetch_json_or_error_app http_get errors url label :
  fetch_json_or_error http_get errors url label =
    (errors ++ (fetch_json_or_error http_get [] url label).1,
     (fetch_json_or_error http_get [] url label).2).
Proof.
  unfold fetch_json_or_error.
  destruct (http_get url) as [|status_code [doc|]|status_code []];
    try case_bool_decide; simpl; by rewrite ?app_nil_r.
Qed.

Lemma fetch_json_or_error_document http_get errors url label d :
  returns_document (http_get url) d →
  fetch_json_or_error http_get errors url label = (errors, Some d).
Proof.
  unfold fetch_json_or_error. by destruct d; simpl; intros ->.
Qed.

Lemma fetch_json_or_error_Some http_get url label d :
  (fetch_json_or_error http_get [] url label).2 = Some d →
  returns_document (http_get url) d ∧
  (fetch_json_or_error http_get [] url label).1 = [].
Proof.
  unfold fetch_json_or_error.
  destruct (http_get url) as [|status_code [doc|]|status_code []];
    try case_bool_decide; simpl; try done.
  - intros [= <-]. simpl. split; [|done]. f_equal.
    destruct (decide (status_code = 200%Z)); [done|contradiction].
  - intros [= <-]. simpl. split; [|done]. f_equal.
    destruct (decide (status_code = 200%Z)); [done|contradiction].
Qed.

Lemma fetch_json_or_error_None http_get url label :
  (fetch_json_or_error http_get [] url label).2 = None ↔
  returns_none (http_get url).
Proof.
  unfold fetch_json_or_error, returns_none.
  destruct (http_get url) as [|status_code [doc|]|status_code []];
    try case_bool_decide; simpl; try tauto.
  - split; [done|]. intros [?|?]; [contradiction|done].
  - split; [done|]. intros [?|?]; [contradiction|done].
Qed.

(** A fetch shows at most one message, and none exactly when the status is
    200 and the body parses, to whatever value. *)
Lemma fetch_json_or_error_messages http_get url label :
  length (fetch_json_or_error http_get [] url label).1 ≤ 1 ∧
  ((fetch_json_or_error http_get [] url label).1 = [] ↔
   (∃ doc, http_get url = Response 200 (Some doc)) ∨
   (∃ json, http_get url = ResponseOther 200 json)).
Proof.
  unfold fetch_json_or_error.
  destruct (http_get url) as [|status_code [doc|]|status_code json].
  - simpl. split; [lia|]. split; [done|]. by intros [[? ?]|[? ?]].
  - case_bool_decide as Hs; simpl; (split; [lia|]).
    + split; [done|]. intros [[? ?]|[? ?]]; by simplify_eq.
    + split; [|done]. intros _. left. exists doc. f_equal.
      destruct (decide (status_code = 200%Z)); [done|contradiction].
  - case_bool_decide as Hs; simpl; (split; [lia|]).
    + split; [done|]. intros [[? ?]|[? ?]]; by simplify_eq.
    + split; [done|]. by intros [[? ?]|[? ?]].
  - case_bool_decide as Hs.
    + simpl. split; [lia|]. split; [done|].
      intros [[? ?]|[? ?]]; by simplify_eq.
    + assert (status_code = 200%Z) as ->
        by (destruct (decide (status_code = 200%Z)); [done|contradiction]).
      destruct json; simpl; (split; [lia|]); (split; [|done]);
        intros _; right; by eexists.
Qed.

(** ** [load_attack] on the fetched documents *)

Lemma load_attack_document_inl dom stix_data matrix_data kck df :
  load_attack_document dom stix_data matrix_data kck = inl df ↔
  ∃ stix matrix,
    stix_data = Object stix ∧ matrix_data = Object matrix ∧
    load_attack dom stix matrix kck = Ok df.
Proof.
  unfold load_attack_document. split.
  - destruct matrix_data as [matrix|]; [|done].
    destruct stix_data as [stix|]; [|done].
    destruct (load_attack dom stix matrix kck) as [df'|] eqn:E; [|done].
    intros [= <-]. by exists stix, matrix.
  - intros (stix & matrix & -> & -> & ->). done.
Qed.

(** The exception of a call: [AttributeError] for an argument that is not
    a dictionary, [KeyError] for a bundle that produces no row. *)
Lemma load_attack_document_inr dom stix_data matrix_data kck e :
  load_attack_document dom stix_data matrix_data kck = inr e ↔
  match stix_data, matrix_data with
  | Object stix, Object _ =>
      e = InLoadAttack (KeyError "tactic_name") ∧
      ∀ r, ¬ produced dom kck (stix_objects stix) r
  | _, _ => e = AttributeError "get"
  end.
Proof.
  unfold load_attack_document.
  destruct matrix_data as [matrix|], stix_data as [stix|];
    try (split; [by intros [= <-] | by intros ->]).
  pose proof (load_attack_cases dom stix matrix kck) as Hcases.
  destruct (load_attack dom stix matrix kck) as [df|e'].
  - destruct Hcases as [_ [r Hr]]. split; [done|].
    intros [_ Hnone]. by destruct (Hnone r).
  - destruct Hcases as [-> Hnone]. split.
    + by intros [= <-].
    + by intros [-> _].
Qed.

(** ** The run of the button *)

Lemma no_empty_filename f1 f2 f3 f4 :
  existsb str_is_empty [f1; f2; f3; f4] = false ↔
  f1 ≠ "" ∧ f2 ≠ "" ∧ f3 ≠ "" ∧ f4 ≠ "".
Proof.
  simpl. rewrite !orb_false_iff.
  rewrite <-!(not_true_iff_false (str_is_empty _)), !str_is_empty_spec.
  tauto.
Qed.

Lemma process_attack_data_empty_filename http_get f1 f2 f3 f4 :
  f1 = "" ∨ f2 = "" ∨ f3 = "" ∨ f4 = "" →
  process_attack_data http_get f1 f2 f3 f4 =
    (["All four filenames are required."], Stopped).
Proof.
  intros H. unfold process_attack_data.
  destruct (existsb str_is_empty [f1; f2; f3; f4]) eqn:E; [done|].
  apply no_empty_filename in E. tauto.
Qed.

Lemma empty_filename_dec (f1 f2 f3 f4 : string) :
  (f1 = "" ∨ f2 = "" ∨ f3 = "" ∨ f4 = "") ∨
  (f1 ≠ "" ∧ f2 ≠ "" ∧ f3 ≠ "" ∧ f4 ≠ "").
Proof.
  destruct (decide (f1 = "")), (decide (f2 = "")), (decide (f3 = "")),
    (decide (f4 = "")); tauto.
Qed.

(** The run with four filenames, by the four fetches taken one by one. *)
Lemma process_attack_data_unfold http_get f1 f2 f3 f4 :
  f1 ≠ "" → f2 ≠ "" → f3 ≠ "" → f4 ≠ "" →
  process_attack_data http_get f1 f2 f3 f4 =
    ((fetch_json_or_error http_get [] (ENT_STIX_BASE +:+ f1)
        "Enterprise STIX").1 ++
     (fetch_json_or_error http_get [] (ENT_MATRIX_BASE +:+ f2)
        "Enterprise Matrix").1 ++
     (fetch_json_or_error http_get [] (ICS_STIX_BASE +:+ f3) "ICS STIX").1 ++
     (fetch_json_or_error http_get [] (ICS_MATRIX_BASE +:+ f4)
        "ICS Matrix").1,
     match
       (fetch_json_or_error http_get [] (ENT_STIX_BASE +:+ f1)
          "Enterprise STIX").2,
       (fetch_json_or_error http_get [] (ENT_MATRIX_BASE +:+ f2)
          "Enterprise Matrix").2,
       (fetch_json_or_error http_get [] (ICS_STIX_BASE +:+ f3) "ICS STIX").2,
       (fetch_json_or_error http_get [] (ICS_MATRIX_BASE +:+ f4)
          "ICS Matrix").2
     with
     | Some ent_stix, Some ent_matrix, Some ics_stix, Some ics_matrix =>
         match load_attack_document "enterprise-attack" ent_stix ent_matrix
                 ["mitre-attack"; "mitre-enterprise-attack"] with
         | inr e => Uncaught e
         | inl enterprise_df =>
             match load_attack_document "ics-attack" ics_stix ics_matrix
                     ["mitre-attack"; "mitre-ics-attack"] with
             | inr e => Uncaught e
             | inl ics_df => Displayed (key_table enterprise_df ics_df)
             end
         end
     | _, _, _, _ => Stopped
     end).
Proof.
  intros H1 H2 H3 H4. unfold process_attack_data.
  rewrite (proj2 (no_empty_filename f1 f2 f3 f4)) by done.
  destruct (fetch_json_or_error http_get [] (ENT_STIX_BASE +:+ f1)
              "Enterprise STIX") as [m1 v1].
  rewrite (fetch_json_or_error_app http_get m1).
  destruct (fetch_json_or_error http_get [] (ENT_MATRIX_BASE +:+ f2)
              "Enterprise Matrix") as [m2 v2].
  simpl. rewrite (fetch_json_or_error_app http_get (m1 ++ m2)).
  destruct (fetch_json_or_error http_get [] (ICS_STIX_BASE +:+ f3)
              "ICS STIX") as [m3 v3].
  simpl. rewrite (fetch_json_or_error_app http_get ((m1 ++ m2) ++ m3)).
  destruct (fetch_json_or_error http_get [] (ICS_MATRIX_BASE +:+ f4)
              "ICS Matrix") as [m4 v4].
  simpl. rewrite <-!app_assoc.
  destruct v1, v2, v3, v4; try done.
  by repeat case_match.
Qed.

(** X14. The run shows a table exactly when the four filenames are not
    empty, the four fetches answer with status 200 and a document, and
    [load_attack] returns for both domains; the table is then the one of
    the two results, and no error message was shown. *)
Theorem process_attack_data_displays http_get f1 f2 f3 f4 errors table :
  process_attack_data http_get f1 f2 f3 f4 = (errors, Displayed table) ↔
  f1 ≠ "" ∧ f2 ≠ "" ∧ f3 ≠ "" ∧ f4 ≠ "" ∧ errors = [] ∧
  ∃ ent_stix ent_matrix ics_stix ics_matrix enterprise_df ics_df,
    http_get (ENT_STIX_BASE +:+ f1) = Response 200 (Some ent_stix) ∧
    http_get (ENT_MATRIX_BASE +:+ f2) = Response 200 (Some ent_matrix) ∧
    http_get (ICS_STIX_BASE +:+ f3) = Response 200 (Some ics_stix) ∧
    http_get (ICS_MATRIX_BASE +:+ f4) = Response 200 (Some ics_matrix) ∧
    load_attack "enterprise-attack" ent_stix ent_matrix
      ["mitre-attack"; "mitre-enterprise-attack"] = Ok enterprise_df ∧
    load_attack "ics-attack" ics_stix ics_matrix
      ["mitre-attack"; "mitre-ics-attack"] = Ok ics_df ∧
    table = key_table enterprise_df ics_df.
Proof.
  split.
  - intros Hrun.
    destruct (empty_filename_dec f1 f2 f3 f4) as [He|(H1 & H2 & H3 & H4)].
    { by rewrite process_attack_data_empty_filename in Hrun. }
    repeat (split; [done|]).
    rewrite process_attack_data_unfold in Hrun by done.
    injection Hrun as Herrors Hout.
    destruct (fetch_json_or_error http_get [] (ENT_STIX_BASE +:+ f1) _).2
      as [d1|] eqn:V1; [|done].
    destruct (fetch_json_or_error http_get [] (ENT_MATRIX_BASE +:+ f2) _).2
      as [d2|] eqn:V2; [|done].
    destruct (fetch_json_or_error http_get [] (ICS_STIX_BASE +:+ f3) _).2
      as [d3|] eqn:V3; [|done].
    destruct (fetch_json_or_error http_get [] (ICS_MATRIX_BASE +:+ f4) _).2
      as [d4|] eqn:V4; [|done].
    apply fetch_json_or_error_Some in V1 as [D1 M1], V2 as [D2 M2],
      V3 as [D3 M3], V4 as [D4 M4].
    rewrite M1, M2, M3, M4 in Herrors. simpl in Herrors.
    destruct (load_attack_document "enterprise-attack" d1 d2 _)
      as [ent|] eqn:Hent; [|done].
    destruct (load_attack_document "ics-attack" d3 d4 _)
      as [ics|] eqn:Hics; [|done].
    apply load_attack_document_inl in Hent as (a & b & -> & -> & Hent).
    apply load_attack_document_inl in Hics as (c & d & -> & -> & Hics).
    injection Hout as <-. split; [done|].
    by exists a, b, c, d, ent, ics.
  - intros (H1 & H2 & H3 & H4 & -> & a & b & c & d & e & i &
            Ha & Hb & Hc & Hd & He & Hi & ->).
    rewrite process_attack_data_unfold by done.
    rewrite (fetch_json_or_error_document _ _ _ _ (Object a) Ha),
      (fetch_json_or_error_document _ _ _ _ (Object b) Hb),
      (fetch_json_or_error_document _ _ _ _ (Object c) Hc),
      (fetch_json_or_error_document _ _ _ _ (Object d) Hd).
    simpl. by rewrite He, Hi.
Qed.

Lemma process_attack_data_displays_sample :
  process_attack_data sample_http "enterprise-attack.json" "matrix-ent.json"
    "ics-attack.json" "matrix-ics.json" =
  ([], Displayed
         (key_table sample_rows
            [Row "Collection" "TA0100" "Screen Capture" "T0852";
             Row "Execution" "TA0104" "Native API" "T0834"])).
Proof.
  apply process_attack_data_displays.
  repeat (split; [done|]).
  exists sample_stix, sample_matrix, namesake_stix, namesake_matrix,
    sample_rows,
    [Row "Collection" "TA0100" "Screen Capture" "T0852";
     Row "Execution" "TA0104" "Native API" "T0834"].
  repeat split; vm_compute; reflexivity.
Defined.

(** X15. Up to the display of the table, the run ends in an uncaught
    exception exactly when the four filenames are not empty, each of the
    four fetches answers with status 200 and a body that parses to a value
    other than null, and one of the two calls of [load_attack] raises; no
    error message was shown.  The enterprise call comes first: it raises
    [AttributeError] when one of its two documents is not a JSON object, and
    [KeyError] on [tactic_name] when its STIX bundle produces no row; the
    ICS call is reached only when the enterprise bundle produces a row, and
    raises in the same two ways. *)
Theorem process_attack_data_raises http_get f1 f2 f3 f4 errors e :
  process_attack_data http_get f1 f2 f3 f4 = (errors, Uncaught e) ↔
  f1 ≠ "" ∧ f2 ≠ "" ∧ f3 ≠ "" ∧ f4 ≠ "" ∧ errors = [] ∧
  ∃ ent_stix ent_matrix ics_stix ics_matrix,
    returns_document (http_get (ENT_STIX_BASE +:+ f1)) ent_stix ∧
    returns_document (http_get (ENT_MATRIX_BASE +:+ f2)) ent_matrix ∧
    returns_document (http_get (ICS_STIX_BASE +:+ f3)) ics_stix ∧
    returns_document (http_get (ICS_MATRIX_BASE +:+ f4)) ics_matrix ∧
    match ent_stix, ent_matrix with
    | Object stix, Object _ =>
        (e = InLoadAttack (KeyError "tactic_name") ∧
         ∀ r, ¬ produced "enterprise-attack"
                  ["mitre-attack"; "mitre-enterprise-attack"]
                  (stix_objects stix) r) ∨
        ((∃ r, produced "enterprise-attack"
                 ["mitre-attack"; "mitre-enterprise-attack"]
                 (stix_objects stix) r) ∧
         match ics_stix, ics_matrix with
         | Object stix', Object _ =>
             e = InLoadAttack (KeyError "tactic_name") ∧
             ∀ r, ¬ produced "ics-attack" ["mitre-attack"; "mitre-ics-attack"]
                      (stix_objects stix') r
         | _, _ => e = AttributeError "get"
         end)
    | _, _ => e = AttributeError "get"
    end.
Proof.
  split.
  - intros Hrun.
    destruct (empty_filename_dec f1 f2 f3 f4) as [He|(H1 & H2 & H3 & H4)].
    { by rewrite process_attack_data_empty_filename in Hrun. }
    repeat (split; [done|]).
    rewrite process_attack_data_unfold in Hrun by done.
    injection Hrun as Herrors Hout.
    destruct (fetch_json_or_error http_get [] (ENT_STIX_BASE +:+ f1) _).2
      as [d1|] eqn:V1; [|done].
    destruct (fetch_json_or_error http_get [] (ENT_MATRIX_BASE +:+ f2) _).2
      as [d2|] eqn:V2; [|done].
    destruct (fetch_json_or_error http_get [] (ICS_STIX_BASE +:+ f3) _).2
      as [d3|] eqn:V3; [|done].
    destruct (fetch_json_or_error http_get [] (ICS_MATRIX_BASE +:+ f4) _).2
      as [d4|] eqn:V4; [|done].
    apply fetch_json_or_error_Some in V1 as [D1 M1], V2 as [D2 M2],
      V3 as [D3 M3], V4 as [D4 M4].
    rewrite M1, M2, M3, M4 in Herrors. simpl in Herrors.
    split; [done|]. exists d1, d2, d3, d4. repeat (split; [done|]).
    destruct (load_attack_document "enterprise-attack" d1 d2 _)
      as [ent|e1] eqn:Hent.
    + apply load_attack_document_inl in Hent as (a & b & -> & -> & Hent).
      right. split.
      { pose proof (load_attack_cases "enterprise-attack" a b
                      ["mitre-attack"; "mitre-enterprise-attack"]) as Hc.
        rewrite Hent in Hc. by destruct Hc. }
      destruct (load_attack_document "ics-attack" d3 d4 _)
        as [ics|e2] eqn:Hics; [done|].
      injection Hout as <-. by apply load_attack_document_inr in Hics.
    + injection Hout as <-. apply load_attack_document_inr in Hent.
      destruct d1 as [a|], d2 as [b|]; try done. by left.
  - intros (H1 & H2 & H3 & H4 & -> & d1 & d2 & d3 & d4 &
            D1 & D2 & D3 & D4 & He).
    rewrite process_attack_data_unfold by done.
    rewrite (fetch_json_or_error_document _ _ _ _ d1 D1),
      (fetch_json_or_error_document _ _ _ _ d2 D2),
      (fetch_json_or_error_document _ _ _ _ d3 D3),
      (fetch_json_or_error_document _ _ _ _ d4 D4).
    simpl. f_equal.
    destruct (load_attack_document "enterprise-attack" d1 d2 _)
      as [ent|e1] eqn:Hent.
    + apply load_attack_document_inl in Hent as (a & b & -> & -> & Hent).
      pose proof (load_attack_cases "enterprise-attack" a b
                    ["mitre-attack"; "mitre-enterprise-attack"]) as Hc.
      rewrite Hent in Hc. destruct Hc as [_ [r Hr]].
      destruct He as [[_ Hnone]|[_ He]]; [by destruct (Hnone r)|].
      destruct (load_attack_document "ics-attack" d3 d4 _)
        as [ics|e2] eqn:Hics.
      * apply load_attack_document_inl in Hics as (c & d & -> & -> & Hics).
        pose proof (load_attack_cases "ics-attack" c d
                      ["mitre-attack"; "mitre-ics-attack"]) as Hc.
        rewrite Hics in Hc. destruct Hc as [_ [r' Hr']].
        destruct He as [_ Hnone]. by destruct (Hnone r').
      * f_equal. apply load_attack_document_inr in Hics.
        destruct d3 as [c|], d4 as [d|]; try congruence.
        destruct Hics as [-> _], He as [-> _]. done.
    + f_equal. apply load_attack_document_inr in Hent.
      destruct d1 as [a|], d2 as [b|]; try congruence.
      destruct Hent as [-> Hnone].
      destruct He as [[-> _]|[[r Hr] _]]; [done|by destruct (Hnone r)].
Qed.

Lemma process_attack_data_raises_sample :
  process_attack_data sample_http "enterprise-attack.json" "matrix-ent.json"
    "ics-attack.json" "list.json" =
  ([], Uncaught (AttributeError "get")).
Proof.
  apply process_attack_data_raises.
  repeat (split; [done|]).
  exists (Object sample_stix), (Object sample_matrix),
    (Object namesake_stix), NotObject.
  repeat (split; [vm_compute; reflexivity|]).
  right. split; [|done].
  pose proof (load_attack_cases "enterprise-attack" sample_stix sample_matrix
                ["mitre-attack"; "mitre-enterprise-attack"]) as Hc.
  destruct (load_attack "enterprise-attack" sample_stix sample_matrix
              ["mitre-attack"; "mitre-enterprise-attack"]) eqn:E;
    [by destruct Hc|by vm_compute in E].
Defined.

(** X16. The run stops without a table and without an exception exactly
    when a filename is empty or one of the four fetches returns [None]: its
    request raised, its status was not 200, its body did not parse, or its
    body was the JSON value null. *)
Theorem process_attack_data_stops http_get f1 f2 f3 f4 :
  (process_attack_data http_get f1 f2 f3 f4).2 = Stopped ↔
  (f1 = "" ∨ f2 = "" ∨ f3 = "" ∨ f4 = "") ∨
  ∃ url,
    url ∈ [ENT_STIX_BASE +:+ f1; ENT_MATRIX_BASE +:+ f2;
           ICS_STIX_BASE +:+ f3; ICS_MATRIX_BASE +:+ f4] ∧
    returns_none (http_get url).
Proof.
  destruct (empty_filename_dec f1 f2 f3 f4) as [He|(H1 & H2 & H3 & H4)].
  { rewrite process_attack_data_empty_filename by done. simpl. tauto. }
  rewrite process_attack_data_unfold by done. simpl.
  pose proof (fetch_json_or_error_None http_get (ENT_STIX_BASE +:+ f1)
                "Enterprise STIX") as N1.
  pose proof (fetch_json_or_error_None http_get (ENT_MATRIX_BASE +:+ f2)
                "Enterprise Matrix") as N2.
  pose proof (fetch_json_or_error_None http_get (ICS_STIX_BASE +:+ f3)
                "ICS STIX") as N3.
  pose proof (fetch_json_or_error_None http_get (ICS_MATRIX_BASE +:+ f4)
                "ICS Matrix") as N4.
  split.
  - intros Hstop. right.
    destruct (fetch_json_or_error http_get [] (ENT_STIX_BASE +:+ f1) _).2
      as [d1|].
    2:{ eexists. split; [|by apply N1]. set_solver. }
    destruct (fetch_json_or_error http_get [] (ENT_MATRIX_BASE +:+ f2) _).2
      as [d2|].
    2:{ eexists. split; [|by apply N2]. set_solver. }
    destruct (fetch_json_or_error http_get [] (ICS_STIX_BASE +:+ f3) _).2
      as [d3|].
    2:{ eexists. split; [|by apply N3]. set_solver. }
    destruct (fetch_json_or_error http_get [] (ICS_MATRIX_BASE +:+ f4) _).2
      as [d4|].
    2:{ eexists. split; [|by apply N4]. set_solver. }
    by repeat case_match.
  - intros [He|(url & Hin & Hnone)]; [tauto|].
    rewrite !elem_of_cons, elem_of_nil in Hin.
    destruct Hin as [->|[->|[->|[->|[]]]]].
    + apply N1 in Hnone. by rewrite Hnone.
    + apply N2 in Hnone. rewrite Hnone. by case_match.
    + apply N3 in Hnone. rewrite Hnone. by repeat case_match.
    + apply N4 in Hnone. rewrite Hnone. by repeat case_match.
Qed.

Lemma process_attack_data_stops_sample :
  (process_attack_data sample_http "enterprise-attack.json" "matrix-ent.json"
     "null.json" "matrix-ics.json").2 = Stopped.
Proof.
  apply process_attack_data_stops. right.
  exists (ICS_STIX_BASE +:+ "null.json"). split.
  - do 2 apply list_elem_of_further. apply list_elem_of_here.
  - vm_compute. right. reflexivity.
Defined.

(** The body [null] stops the run with no message at all. *)
Lemma null_body_stops_silently :
  process_attack_data sample_http "enterprise-attack.json" "matrix-ent.json"
    "null.json" "matrix-ics.json" = ([], Stopped).
Proof. vm_compute. reflexivity. Qed.

(** X17. With four filenames given, the four fetches are all attempted,
    whatever the earlier ones returned, and the messages shown are theirs in
    the order enterprise STIX, enterprise matrix, ICS STIX, ICS matrix; a
    fetch shows at most one message, and none exactly when its response has
    status 200 and a body that parses, null included. *)
Theorem process_attack_data_errors http_get f1 f2 f3 f4 :
  f1 ≠ "" → f2 ≠ "" → f3 ≠ "" → f4 ≠ "" →
  (process_attack_data http_get f1 f2 f3 f4).1 =
    (fetch_json_or_error http_get [] (ENT_STIX_BASE +:+ f1)
       "Enterprise STIX").1 ++
    (fetch_json_or_error http_get [] (ENT_MATRIX_BASE +:+ f2)
       "Enterprise Matrix").1 ++
    (fetch_json_or_error http_get [] (ICS_STIX_BASE +:+ f3) "ICS STIX").1 ++
    (fetch_json_or_error http_get [] (ICS_MATRIX_BASE +:+ f4)
       "ICS Matrix").1 ∧
  ∀ url label,
    length (fetch_json_or_error http_get [] url label).1 ≤ 1 ∧
    ((fetch_json_or_error http_get [] url label).1 = [] ↔
     (∃ doc, http_get url = Response 200 (Some doc)) ∨
     (∃ json, http_get url = ResponseOther 200 json)).
Proof.
  intros H1 H2 H3 H4. split.
  - by rewrite process_attack_data_unfold.
  - intros url label. apply fetch_json_or_error_messages.
Qed.

Lemma process_attack_data_errors_sample :
  (process_attack_data sample_http "missing.json" "matrix-ent.json"
     "null.json" "unreachable.json").1 =
  ["Enterprise STIX file not found at URL:" +:+ newline +:+
     ENT_STIX_BASE +:+ "missing.json";
   "Failed to fetch ICS Matrix. Check filename or network."].
Proof.
  etrans;
    [apply (process_attack_data_errors sample_http "missing.json"
              "matrix-ent.json" "null.json" "unreachable.json"); done|].
  vm_compute. reflexivity.
Defined.

(** An ICS bundle without objects: the enterprise rows are computed, then
    the ICS call raises, and nothing is displayed. *)
Lemma empty_ics_bundle_raises_key_error :
  process_attack_data sample_http "enterprise-attack.json" "matrix-ent.json"
    "empty.json" "matrix-ics.json" =
  ([], Uncaught (InLoadAttack (KeyError "tactic_name"))).
Proof. vm_compute. reflexivity. Qed.
